(** * chunk_learner: the chunk store and its dependency-aware scheduler

    A shallow embedding of [src/chunk_learner/database.py] (the schema),
    [src/chunk_learner/operations.py] (the store operations and the
    availability query) and the commands [complete] (the completion
    gate), [add], [list] and [next] of [src/chunk_learner/cli.py].

    The SQLite database is a record of two tables, each the list of its
    rows in rowid order, with the AUTOINCREMENT counters SQLite keeps in
    [sqlite_sequence].  Every operation opens a connection, runs one
    statement and commits, so an operation is a function from the store
    before the call to a result and the store after it.  The clock
    ([CURRENT_TIMESTAMP], [datetime.now()]) is an explicit argument.

    The statements are modelled on integer parameters that bind, that is,
    on [sqlite_integer] values: for a Python int outside the signed 64-bit
    range [cursor.execute] raises [OverflowError] before the statement
    runs, which no operation catches.  Properties that say what a call
    returns for a given id are stated for ids in that range. *)

From Stdlib Require Import ZArith List String Bool Lia Permutation Sorted FinFun.
Import ListNotations.
Open Scope Z_scope.

(** ** models.py and the schema of database.py *)

(** A clock reading.  [CURRENT_TIMESTAMP] stores it as fixed-width text
    (YYYY-MM-DD HH:MM:SS), whose byte order is the order of the readings. *)
Definition timestamp := Z.

(** A row of table [chunks], which [operations.py] turns field by field
    into the dataclass [Chunk].  [created_at] and [completed_at] are
    nullable columns. *)
Record Chunk := mkChunk {
  id : Z;
  name : string;
  description : string;
  difficulty : Z;
  completed : bool;
  created_at : option timestamp;
  completed_at : option timestamp
}.

(** A row of table [dependencies]. *)
Record Dependency := mkDependency {
  dep_id : Z;
  chunk_id : Z;
  depends_on_chunk_id : Z
}.

(** The database file: both tables and the [sqlite_sequence] counters of
    their AUTOINCREMENT keys. *)
Record Store := mkStore {
  chunks : list Chunk;
  chunks_seq : Z;
  dependencies : list Dependency;
  dependencies_seq : Z
}.

(** [init_database] on a fresh file: two empty tables. *)
Definition init_database : Store :=
  {| chunks := []; chunks_seq := 0; dependencies := []; dependencies_seq := 0 |}.

(** The constraints of the schema whose violation aborts a statement. *)
Inductive constraint :=
| CHECK_difficulty_between_1_and_5
| UNIQUE_chunk_id_depends_on_chunk_id.

(** The exception a statement raises ([sqlite3.IntegrityError]). *)
Inductive exn :=
| IntegrityError (c : constraint).

Inductive result (A : Type) :=
| Return (a : A)
| Raise (e : exn).
Arguments Return {A} a.
Arguments Raise {A} e.

(** AUTOINCREMENT: one more than the largest rowid the table ever held. *)
Definition next_rowid (seq : Z) (rowids : list Z) : Z :=
  Z.max seq (fold_right Z.max 0 rowids) + 1.

(** The integers that bind to a statement parameter and that an INTEGER
    column holds: the signed 64-bit range.  On any other Python int the
    [sqlite3] module raises [OverflowError] before the statement runs. *)
Definition sqlite_integer (z : Z) : Prop :=
  - 2 ^ 63 <= z < 2 ^ 63.

(** ** Ordering of result rows *)

(** Stable insertion into a list sorted by [le]. *)
Fixpoint insert_row {A : Type} (le : A -> A -> bool) (x : A) (l : list A) : list A :=
  match l with
  | [] => [x]
  | y :: l' => if le x y then x :: y :: l' else y :: insert_row le x l'
  end.

(** [ORDER BY]: the rows sorted by [le], rows of equal key in table order. *)
Fixpoint order_by {A : Type} (le : A -> A -> bool) (l : list A) : list A :=
  match l with
  | [] => []
  | x :: l' => insert_row le x (order_by le l')
  end.

(** [ASC] on a nullable column: NULL sorts before every value. *)
Definition timestamp_le (a b : option timestamp) : bool :=
  match a, b with
  | None, _ => true
  | Some _, None => false
  | Some x, Some y => x <=? y
  end.

(** [ORDER BY c.difficulty ASC, c.created_at ASC]. *)
Definition difficulty_created_at_asc (a b : Chunk) : bool :=
  (difficulty a <? difficulty b)
  || ((difficulty a =? difficulty b) && timestamp_le (created_at a) (created_at b)).

(** [ORDER BY created_at DESC]. *)
Definition created_at_desc (a b : Chunk) : bool :=
  timestamp_le (created_at b) (created_at a).

(** ** operations.py *)

(** [INSERT INTO chunks (name, description, difficulty)]: the CHECK on
    [difficulty] aborts the statement; otherwise the row gets the next
    rowid and the column defaults.  (A difficulty that does not bind is
    refused as well, by [OverflowError] instead, with the store likewise
    unchanged.) *)
Definition create_chunk (name description : string) (difficulty : Z)
    (now : timestamp) (s : Store) : result Z * Store :=
  if (1 <=? difficulty) && (difficulty <=? 5) then
    let rowid := next_rowid (chunks_seq s) (map id (chunks s)) in
    (Return rowid,
     {| chunks := chunks s ++
          [ {| id := rowid; name := name; description := description;
               difficulty := difficulty; completed := false;
               created_at := Some now; completed_at := None |} ];
        chunks_seq := rowid;
        dependencies := dependencies s;
        dependencies_seq := dependencies_seq s |})
  else (Raise (IntegrityError CHECK_difficulty_between_1_and_5), s).

(** [SELECT * FROM chunks ORDER BY created_at DESC]. *)
Definition get_all_chunks (s : Store) : list Chunk :=
  order_by created_at_desc (chunks s).

(** [SELECT * FROM chunks WHERE id = ?] and [fetchone], for an id that
    binds. *)
Definition get_chunk_by_id (cid : Z) (s : Store) : option Chunk :=
  find (fun c => id c =? cid) (chunks s).

(** The row after [SET completed = 1, completed_at = ?]. *)
Definition set_completed (now : timestamp) (c : Chunk) : Chunk :=
  {| id := id c; name := name c; description := description c;
     difficulty := difficulty c; completed := true;
     created_at := created_at c; completed_at := Some now |}.

(** [UPDATE chunks SET completed = 1, completed_at = ? WHERE id = ?], for
    an id that binds; the result is [rows_affected > 0]. *)
Definition complete_chunk (cid : Z) (now : timestamp) (s : Store) : bool * Store :=
  let rows_affected := Z.of_nat (List.length (filter (fun c => id c =? cid) (chunks s))) in
  (0 <? rows_affected,
   {| chunks := map (fun c => if id c =? cid then set_completed now c else c) (chunks s);
      chunks_seq := chunks_seq s;
      dependencies := dependencies s;
      dependencies_seq := dependencies_seq s |}).

(** [INSERT INTO dependencies (chunk_id, depends_on_chunk_id)], for ids
    that bind: the UNIQUE constraint aborts the statement.  Foreign keys
    are declared in the schema but [get_connection] never turns their
    enforcement on. *)
Definition insert_dependency (cid depends_on : Z) (s : Store)
    : result Z * Store :=
  if existsb (fun d => (chunk_id d =? cid) && (depends_on_chunk_id d =? depends_on))
             (dependencies s)
  then (Raise (IntegrityError UNIQUE_chunk_id_depends_on_chunk_id), s)
  else
    let rowid := next_rowid (dependencies_seq s) (map dep_id (dependencies s)) in
    (Return rowid,
     {| chunks := chunks s;
        chunks_seq := chunks_seq s;
        dependencies := dependencies s ++
          [ {| dep_id := rowid; chunk_id := cid;
               depends_on_chunk_id := depends_on |} ];
        dependencies_seq := rowid |}).

(** [add_dependency]: the insertion, with [sqlite3.IntegrityError] caught
    and turned into [False]. *)
Definition add_dependency (cid depends_on : Z) (s : Store) : bool * Store :=
  match insert_dependency cid depends_on s with
  | (Return _, s') => (true, s')
  | (Raise (IntegrityError _), s') => (false, s')
  end.

(** [SELECT c.* FROM chunks c JOIN dependencies d
     ON c.id = d.depends_on_chunk_id WHERE d.chunk_id = ?].  The statement
    has no ORDER BY; the joined rows are listed here edge by edge, and no
    property below depends on their order. *)
Definition get_chunk_dependencies (cid : Z) (s : Store) : list Chunk :=
  flat_map
    (fun d =>
       if chunk_id d =? cid
       then filter (fun c => id c =? depends_on_chunk_id d) (chunks s)
       else [])
    (dependencies s).

(** The subquery of [get_next_available_chunk]:
    [EXISTS (SELECT 1 FROM dependencies d
             JOIN chunks dep ON d.depends_on_chunk_id = dep.id
             WHERE d.chunk_id = c.id AND dep.completed = 0)]. *)
Definition exists_incomplete_dependency (s : Store) (c : Chunk) : bool :=
  existsb
    (fun d =>
       existsb
         (fun dep =>
            (depends_on_chunk_id d =? id dep)
            && (chunk_id d =? id c)
            && negb (completed dep))
         (chunks s))
    (dependencies s).

(** [SELECT c.* FROM chunks c WHERE c.completed = 0 AND NOT EXISTS (...)
     ORDER BY c.difficulty ASC, c.created_at ASC LIMIT 1] and [fetchone]. *)
Definition get_next_available_chunk (s : Store) : option Chunk :=
  let rows :=
    firstn 1
      (order_by difficulty_created_at_asc
         (filter
            (fun c => negb (completed c) && negb (exists_incomplete_dependency s c))
            (chunks s))) in
  match rows with
  | [] => None
  | row :: _ => Some row
  end.

(** ** cli.py: the [complete] command *)

(** What the checks of [complete] (lines 123-141) decide before
    [operations.complete_chunk] is called: the completion gate. *)
Inductive gate :=
| NotFound
| AlreadyCompleted
| Blocked (incomplete_deps : list Chunk)
| Passed.

Definition can_complete (cid : Z) (s : Store) : gate :=
  match get_chunk_by_id cid s with
  | None => NotFound
  | Some chunk =>
      if completed chunk then AlreadyCompleted
      else
        let deps := get_chunk_dependencies cid s in
        let incomplete_deps := filter (fun d => negb (completed d)) deps in
        match incomplete_deps with
        | _ :: _ => Blocked incomplete_deps
        | [] => Passed
        end
  end.

(** How the command ends: [typer.Exit(1)] or a normal return after one of
    its messages. *)
Inductive outcome :=
| Exit_not_found
| Return_already_completed
| Exit_incomplete_dependencies (incomplete_deps : list Chunk)
| Return_completed
| Return_failed_to_complete.

Definition complete (cid : Z) (now : timestamp) (s : Store) : outcome * Store :=
  match can_complete cid s with
  | NotFound => (Exit_not_found, s)
  | AlreadyCompleted => (Return_already_completed, s)
  | Blocked incomplete_deps => (Exit_incomplete_dependencies incomplete_deps, s)
  | Passed =>
      let (ok, s') := complete_chunk cid now s in
      if ok then (Return_completed, s') else (Return_failed_to_complete, s')
  end.

(** ** Sequences of calls *)

(** A call of an exposed operation, with the clock reading it sees. *)
Inductive operation :=
| Create_chunk (name description : string) (difficulty : Z) (now : timestamp)
| Get_all_chunks
| Get_chunk_by_id (cid : Z)
| Complete_chunk (cid : Z) (now : timestamp)
| Add_dependency (cid depends_on : Z)
| Get_chunk_dependencies (cid : Z)
| Get_next_available_chunk
| Complete (cid : Z) (now : timestamp).

(** The store after the call; the queries only read. *)
Definition step (s : Store) (op : operation) : Store :=
  match op with
  | Create_chunk name description difficulty now =>
      snd (create_chunk name description difficulty now s)
  | Complete_chunk cid now => snd (complete_chunk cid now s)
  | Add_dependency cid depends_on => snd (add_dependency cid depends_on s)
  | Complete cid now => snd (complete cid now s)
  | Get_all_chunks => s
  | Get_chunk_by_id _ => s
  | Get_chunk_dependencies _ => s
  | Get_next_available_chunk => s
  end.

Definition run (ops : list operation) (s : Store) : Store :=
  fold_left step ops s.

(** ** The notions the properties are stated with *)

(** A chunk is a candidate when it is incomplete and each of its direct
    dependencies, as [get_chunk_dependencies] lists them, is completed. *)
Definition candidate (s : Store) (c : Chunk) : bool :=
  negb (completed c) && forallb completed (get_chunk_dependencies (id c) s).

Definition candidates (s : Store) : list Chunk :=
  filter (candidate s) (chunks s).

(** [a] comes no later than [b] under difficulty ascending, then
    created_at ascending. *)
Definition key_le (a b : Chunk) : Prop :=
  difficulty a < difficulty b
  \/ (difficulty a = difficulty b /\ timestamp_le (created_at a) (created_at b) = true).

(** [(cid, depends_on)] is a row of table [dependencies]. *)
Definition edge (s : Store) (cid depends_on : Z) : Prop :=
  exists d, In d (dependencies s) /\ chunk_id d = cid /\ depends_on_chunk_id d = depends_on.

(** Some chunk has this id. *)
Definition chunk_exists (s : Store) (cid : Z) : Prop :=
  exists c, In c (chunks s) /\ id c = cid.

(** ** cli.py: the [add] and [next] commands *)

(** What [add] prints for one piece of the comma-separated answer. *)
Inductive dependency_line :=
| Added_dependency (dep : Z)
| Failed_to_add_dependency (dep : Z)
| Invalid_chunk_id.

(** The loop over [dep_ids.split(",")]. A piece is given as the integer
    that [int(dep_id_str.strip())] returns, or as [None] where it raises
    ValueError.  This is the loop as it runs when the integers bind; an
    [OverflowError] of [add_dependency] is no ValueError and would end the
    command at that piece, with the edges added so far kept. *)
Fixpoint add_dependencies (new_id : Z) (dep_ids : list (option Z)) (s : Store)
    : list dependency_line * Store :=
  match dep_ids with
  | [] => ([], s)
  | None :: rest =>
      let (lines, s') := add_dependencies new_id rest s in
      (Invalid_chunk_id :: lines, s')
  | Some dep :: rest =>
      let (ok, s1) := add_dependency new_id dep s in
      let (lines, s2) := add_dependencies new_id rest s1 in
      ((if ok then Added_dependency dep else Failed_to_add_dependency dep) :: lines, s2)
  end.

(** How [add] ends. *)
Inductive add_outcome :=
| Exit_difficulty_out_of_range
| Create_chunk_raised (e : exn)
| Created (new_id : Z) (lines : list dependency_line)
| Created_no_other_chunks (new_id : Z).

(** [add], with the answers to its prompts as arguments: the three
    fields, the answer to the confirmation and the pieces of the answer to
    the prompt for dependency ids (no piece for the empty answer). *)
Definition add (nm descr : string) (diff : Z) (add_deps : bool)
    (dep_ids : list (option Z)) (now : timestamp) (s : Store) : add_outcome * Store :=
  if (diff <? 1) || (diff >? 5) then (Exit_difficulty_out_of_range, s)
  else
    match create_chunk nm descr diff now s with
    | (Raise e, s') => (Create_chunk_raised e, s')
    | (Return new_id, s1) =>
        if add_deps then
          if (List.length (get_all_chunks s1) <=? 1)%nat
          then (Created_no_other_chunks new_id, s1)
          else
            let (lines, s2) := add_dependencies new_id dep_ids s1 in
            (Created new_id lines, s2)
        else (Created new_id [], s1)
    end.

(** [next]: the chunk it shows and the dependencies it lists under
    "Dependencies (all completed)". *)
Definition next (s : Store) : option (Chunk * list Chunk) :=
  match get_next_available_chunk s with
  | None => None
  | Some chunk => Some (chunk, get_chunk_dependencies (id chunk) s)
  end.

(** ** cli.py: the [list] command *)

(** A row of the table that [list] prints: the id, the name, the number of
    stars that the star character times [chunk.difficulty] gives (none for
    a difficulty below 1), whether the status reads complete, and the ids
    joined in the dependencies column (a dash when there is none). *)
Record table_row := mkRow {
  row_id : Z;
  row_name : string;
  row_stars : nat;
  row_complete : bool;
  row_dependencies : list Z
}.

(** [list]: one row for each chunk of [get_all_chunks], each with the
    result of [get_chunk_dependencies] for its id; no table when there is
    no chunk. *)
Definition list_table (s : Store) : option (list table_row) :=
  match get_all_chunks s with
  | [] => None
  | chunk :: rest =>
      Some (map (fun chunk =>
                   {| row_id := id chunk;
                      row_name := name chunk;
                      row_stars := Z.to_nat (difficulty chunk);
                      row_complete := completed chunk;
                      row_dependencies := map id (get_chunk_dependencies (id chunk) s) |})
                (chunk :: rest))
  end.

(** ** Further notions *)

(** The columns under the UNIQUE constraint. *)
Definition pair (d : Dependency) : Z * Z :=
  (chunk_id d, depends_on_chunk_id d).

(** Every completed chunk has only completed direct dependencies. *)
Definition dependency_closed (s : Store) : Prop :=
  forall c,
    In c (chunks s) -> completed c = true ->
    Forall (fun dep => completed dep = true) (get_chunk_dependencies (id c) s).

(** Every dependency edge leads to the id of a chunk. *)
Definition targets_exist (s : Store) : Prop :=
  forall d, In d (dependencies s) -> chunk_exists s (depends_on_chunk_id d).

(** Calls that add no dependency and complete only through the gate: the
    [complete] command, creations and the queries, but neither
    [add_dependency] nor a direct [complete_chunk]. *)
Definition through_the_gate (op : operation) : bool :=
  match op with
  | Complete _ _ => true
  | Create_chunk _ _ _ _ => true
  | Get_all_chunks => true
  | Get_chunk_by_id _ => true
  | Get_chunk_dependencies _ => true
  | Get_next_available_chunk => true
  | Complete_chunk _ _ => false
  | Add_dependency _ _ => false
  end.

(** The fields of a chunk that no statement updates. *)
Definition same_fixed_fields (a b : Chunk) : Prop :=
  id a = id b /\ name a = name b /\ description a = description b
  /\ difficulty a = difficulty b /\ created_at a = created_at b.

(** The chunks carry the ids 1, 2, ... in table order and the counter is
    the number of chunks. *)
Definition sequential_ids (s : Store) : Prop :=
  map id (chunks s) = map Z.of_nat (seq 1 (List.length (chunks s)))
  /\ chunks_seq s = Z.of_nat (List.length (chunks s)).

(** ** Scenarios of the test suite *)

Definition learn_pandas : operation :=
  Create_chunk "Learn Pandas" "Learn pandas basics" 2 100.
Definition build_ml_model : operation :=
  Create_chunk "Build ML Model" "Create a simple model" 4 101.

(** Chunk 2 depends on chunk 1 (scenario A of the specification). *)
Definition two_chunks_one_edge : Store :=
  run [learn_pandas; build_ml_model; Add_dependency 2 1] init_database.

(** Chunk 1 is completed first and is given a dependency on the
    incomplete chunk 2 afterwards. *)
Definition completed_then_dependent : Store :=
  run [learn_pandas; build_ml_model; Complete 1 200; Add_dependency 1 2] init_database.

(** Chunk 1 has an edge to id 99, which no chunk has. *)
Definition dangling_edge : Store :=
  run [learn_pandas; Add_dependency 1 99] init_database.

(** Chunk 1 depends on itself. *)
Definition self_loop : Store :=
  run [learn_pandas; Add_dependency 1 1] init_database.

(** Chunk 1 is completed at clock reading 200. *)
Definition one_completed_chunk : Store :=
  run [learn_pandas; Complete_chunk 1 200] init_database.

(** Chunk 2 depends on chunk 1, which is completed. *)
Definition prerequisite_completed : Store :=
  run [Complete 1 200] two_chunks_one_edge.

(** Chunk 1 has an edge to id 2, the id the next chunk will get. *)
Definition edge_to_next_id : Store :=
  run [learn_pandas; Add_dependency 1 2] init_database.

Example test_create_chunk :
  get_chunk_by_id 1 (run [learn_pandas] init_database)
  = Some (mkChunk 1 "Learn Pandas" "Learn pandas basics" 2 false (Some 100) None).
Proof. reflexivity. Qed.

Example test_complete_chunk :
  let s := run [learn_pandas] init_database in
  fst (complete_chunk 1 200 s) = true
  /\ get_chunk_by_id 1 (snd (complete_chunk 1 200 s))
     = Some (mkChunk 1 "Learn Pandas" "Learn pandas basics" 2 true (Some 100) (Some 200)).
Proof. split; reflexivity. Qed.

Example test_add_dependency :
  let s := run [learn_pandas; build_ml_model] init_database in
  fst (add_dependency 2 1 s) = true
  /\ map id (get_chunk_dependencies 2 (snd (add_dependency 2 1 s))) = [1].
Proof. split; reflexivity. Qed.

Example test_get_next_available_chunk :
  let s := run [learn_pandas; build_ml_model; Add_dependency 2 1] init_database in
  option_map id (get_next_available_chunk s) = Some 1
  /\ option_map id (get_next_available_chunk (run [Complete_chunk 1 200] s)) = Some 2.
Proof. split; reflexivity. Qed.

(** ** Facts about [ORDER BY] *)

Section Order_by.
Context {A : Type} (le : A -> A -> bool).

Lemma insert_row_In (x y : A) (l : list A) :
  In y (insert_row le x l) <-> y = x \/ In y l.
Proof.
  induction l as [|z l IH]; simpl.
  - intuition congruence.
  - destruct (le x z); simpl; rewrite ?IH; intuition congruence.
Qed.

Lemma order_by_In (y : A) (l : list A) : In y (order_by le l) <-> In y l.
Proof.
  induction l as [|x l IH]; simpl; [tauto|].
  rewrite insert_row_In, IH. intuition congruence.
Qed.

Lemma order_by_nil (l : list A) : order_by le l = [] -> l = [].
Proof.
  destruct l as [|x l]; [reflexivity|]. simpl. intros H.
  assert (Hin : In x (insert_row le x (order_by le l)))
    by (apply insert_row_In; now left).
  rewrite H in Hin. destruct Hin.
Qed.

(** The first row after inserting [x] is [x] or the former first row. *)
Lemma insert_row_head (x : A) (l : list A) :
  hd_error (insert_row le x l)
  = match hd_error l with
    | None => Some x
    | Some m => if le x m then Some x else Some m
    end.
Proof. destruct l as [|y l]; simpl; [reflexivity|]. now destruct (le x y). Qed.

Hypothesis le_total : forall a b, le a b = true \/ le b a = true.
Hypothesis le_trans : forall a b c, le a b = true -> le b c = true -> le a c = true.

(** The first row of the sorted rows is below every row. *)
Lemma order_by_head_min (l : list A) (r : A) :
  hd_error (order_by le l) = Some r ->
  forall c, In c l -> le r c = true.
Proof.
  revert r. induction l as [|x l IH]; intros r Hr c Hc; [destruct Hc|].
  simpl in Hr. rewrite insert_row_head in Hr.
  destruct (hd_error (order_by le l)) as [m|] eqn:Hm.
  - specialize (IH m eq_refl).
    destruct (le x m) eqn:Hxm; injection Hr as <-; destruct Hc as [<-|Hc].
    + destruct (le_total x x); assumption.
    + eapply le_trans; [exact Hxm | now apply IH].
    + destruct (le_total x m); congruence.
    + now apply IH.
  - injection Hr as <-. destruct Hc as [<-|Hc].
    + destruct (le_total x x); assumption.
    + destruct (order_by le l) eqn:Ho; [|discriminate].
      apply order_by_nil in Ho. subst l. destruct Hc.
Qed.
End Order_by.

Lemma timestamp_le_total (a b : option timestamp) :
  timestamp_le a b = true \/ timestamp_le b a = true.
Proof. destruct a, b; simpl; auto. lia. Qed.

Lemma timestamp_le_trans (a b c : option timestamp) :
  timestamp_le a b = true -> timestamp_le b c = true -> timestamp_le a c = true.
Proof. destruct a, b, c; simpl; try congruence. lia. Qed.

(** The comparison of the ORDER BY clause decides [key_le]. *)
Lemma difficulty_created_at_asc_key_le (a b : Chunk) :
  difficulty_created_at_asc a b = true <-> key_le a b.
Proof.
  unfold difficulty_created_at_asc, key_le.
  rewrite orb_true_iff, andb_true_iff, Z.ltb_lt, Z.eqb_eq. tauto.
Qed.

Lemma difficulty_created_at_asc_total (a b : Chunk) :
  difficulty_created_at_asc a b = true \/ difficulty_created_at_asc b a = true.
Proof.
  rewrite !difficulty_created_at_asc_key_le. unfold key_le.
  destruct (Z.lt_trichotomy (difficulty a) (difficulty b)) as [H|[H|H]]; auto.
  destruct (timestamp_le_total (created_at a) (created_at b)); auto.
Qed.

Lemma difficulty_created_at_asc_trans (a b c : Chunk) :
  difficulty_created_at_asc a b = true ->
  difficulty_created_at_asc b c = true ->
  difficulty_created_at_asc a c = true.
Proof.
  rewrite !difficulty_created_at_asc_key_le. unfold key_le.
  intros [H1|[H1 T1]] [H2|[H2 T2]]; try lia.
  right. split; [lia|]. eapply timestamp_le_trans; eassumption.
Qed.

(** ** The availability query against the join *)

(** The EXISTS subquery finds a row exactly when the join that
    [get_chunk_dependencies] computes holds an incomplete chunk. *)
Lemma exists_incomplete_dependency_spec (s : Store) (c : Chunk) :
  exists_incomplete_dependency s c = true
  <-> exists dep, In dep (get_chunk_dependencies (id c) s) /\ completed dep = false.
Proof.
  unfold exists_incomplete_dependency, get_chunk_dependencies.
  rewrite existsb_exists. split.
  - intros (d & Hd & H). apply existsb_exists in H. destruct H as (dep & Hdep & H).
    apply andb_true_iff in H. destruct H as [H Hc].
    apply andb_true_iff in H. destruct H as [H1 H2].
    exists dep. split; [|now apply negb_true_iff].
    apply in_flat_map. exists d. split; [assumption|].
    rewrite H2. apply filter_In. split; [assumption|].
    apply Z.eqb_eq. apply Z.eqb_eq in H1. congruence.
  - intros (dep & Hin & Hc). apply in_flat_map in Hin. destruct Hin as (d & Hd & Hin).
    destruct (chunk_id d =? id c) eqn:E; [|destruct Hin].
    apply filter_In in Hin. destruct Hin as [Hin Hid].
    exists d. split; [assumption|]. apply existsb_exists. exists dep.
    split; [assumption|]. rewrite E, Hc. apply Z.eqb_eq in Hid.
    rewrite <- Hid, Z.eqb_refl. reflexivity.
Qed.

(** The WHERE clause of the availability query selects the candidates. *)
Lemma where_clause_candidate (s : Store) (c : Chunk) :
  negb (completed c) && negb (exists_incomplete_dependency s c) = candidate s c.
Proof.
  unfold candidate. f_equal.
  destruct (exists_incomplete_dependency s c) eqn:E; simpl; symmetry.
  - apply exists_incomplete_dependency_spec in E. destruct E as (dep & Hin & Hc).
    apply not_true_is_false. intros H. rewrite forallb_forall in H.
    specialize (H dep Hin). congruence.
  - apply forallb_forall. intros dep Hin.
    destruct (completed dep) eqn:Hc; [reflexivity|].
    assert (exists_incomplete_dependency s c = true)
      by (apply exists_incomplete_dependency_spec; eauto).
    congruence.
Qed.

Lemma get_next_available_chunk_candidates (s : Store) :
  get_next_available_chunk s
  = hd_error (order_by difficulty_created_at_asc (candidates s)).
Proof.
  unfold get_next_available_chunk, candidates.
  rewrite (filter_ext _ (candidate s) (where_clause_candidate s)).
  now destruct (order_by _ _).
Qed.

Lemma candidates_In (s : Store) (c : Chunk) :
  In c (candidates s)
  <-> In c (chunks s)
      /\ completed c = false
      /\ Forall (fun dep => completed dep = true) (get_chunk_dependencies (id c) s).
Proof.
  unfold candidates, candidate.
  rewrite filter_In, andb_true_iff, negb_true_iff, forallb_forall, Forall_forall.
  tauto.
Qed.

Lemma get_next_available_chunk_In (s : Store) (r : Chunk) :
  get_next_available_chunk s = Some r -> In r (candidates s).
Proof.
  rewrite get_next_available_chunk_candidates. intros Hr.
  apply (order_by_In difficulty_created_at_asc).
  destruct (order_by _ _); [discriminate|]. injection Hr as <-. now left.
Qed.

(** C1. Selection correctness: whatever the store holds, the chunk that
    [get_next_available_chunk] returns is a row of [chunks] that is not
    completed and whose direct dependencies are all completed, and it comes
    first among all candidates under difficulty ascending, then created_at
    ascending; [None] is returned exactly when there is no candidate. *)
Theorem get_next_available_chunk_correct (s : Store) :
  match get_next_available_chunk s with
  | Some r =>
      In r (chunks s)
      /\ completed r = false
      /\ Forall (fun dep => completed dep = true) (get_chunk_dependencies (id r) s)
      /\ Forall (fun c => key_le r c) (candidates s)
  | None => candidates s = []
  end.
Proof.
  destruct (get_next_available_chunk s) as [r|] eqn:Hr.
  - pose proof (get_next_available_chunk_In s r Hr) as Hin.
    apply candidates_In in Hin. destruct Hin as (Hin & Hc & Hdeps).
    repeat split; try assumption.
    rewrite get_next_available_chunk_candidates in Hr.
    apply Forall_forall. intros c Hcand.
    apply difficulty_created_at_asc_key_le.
    eapply order_by_head_min; eauto using difficulty_created_at_asc_total,
      difficulty_created_at_asc_trans.
  - rewrite get_next_available_chunk_candidates in Hr.
    destruct (order_by _ _) eqn:Ho; [|discriminate].
    now apply order_by_nil in Ho.
Qed.

(** ** The completion gate *)

Lemma get_chunk_by_id_Some (s : Store) (cid : Z) (chunk : Chunk) :
  get_chunk_by_id cid s = Some chunk -> In chunk (chunks s) /\ id chunk = cid.
Proof.
  unfold get_chunk_by_id. intros H. apply find_some in H.
  destruct H as [Hin Hid]. apply Z.eqb_eq in Hid. now split.
Qed.

Lemma get_chunk_by_id_None (s : Store) (cid : Z) :
  get_chunk_by_id cid s = None <-> ~ chunk_exists s cid.
Proof.
  unfold get_chunk_by_id, chunk_exists. split.
  - intros H (c & Hin & Hid). apply (find_none _ _ H) in Hin.
    apply Z.eqb_neq in Hin. contradiction.
  - intros H. destruct (find _ _) as [c|] eqn:E; [|reflexivity].
    apply find_some in E. destruct E as [Hin Hid]. apply Z.eqb_eq in Hid.
    exfalso. apply H. now exists c.
Qed.

(** A chunk is in the join exactly when an edge of [cid] points to it. *)
Lemma get_chunk_dependencies_In (s : Store) (cid : Z) (dep : Chunk) :
  In dep (get_chunk_dependencies cid s) <-> In dep (chunks s) /\ edge s cid (id dep).
Proof.
  unfold get_chunk_dependencies, edge. rewrite in_flat_map. split.
  - intros (d & Hd & Hin). destruct (chunk_id d =? cid) eqn:E; [|destruct Hin].
    apply filter_In in Hin. destruct Hin as [Hin Hid].
    apply Z.eqb_eq in E. apply Z.eqb_eq in Hid. split; [assumption|].
    exists d. auto.
  - intros (Hin & d & Hd & Hc & Ho). exists d. split; [assumption|].
    rewrite <- Hc, Z.eqb_refl. apply filter_In. split; [assumption|].
    now apply Z.eqb_eq.
Qed.

Lemma filter_incomplete_nil (l : list Chunk) :
  filter (fun d => negb (completed d)) l = [] <-> Forall (fun d => completed d = true) l.
Proof.
  induction l as [|c l IH]; simpl.
  - split; auto.
  - destruct (completed c) eqn:E; simpl.
    + rewrite IH. split; [now constructor|]. intros H. now inversion H.
    + split; [discriminate|]. intros H. inversion H. congruence.
Qed.

(** The gate passes only for a present, incomplete chunk whose direct
    dependencies are all completed. *)
Lemma can_complete_Passed (s : Store) (cid : Z) :
  can_complete cid s = Passed ->
  exists chunk,
    get_chunk_by_id cid s = Some chunk
    /\ completed chunk = false
    /\ Forall (fun dep => completed dep = true) (get_chunk_dependencies cid s).
Proof.
  unfold can_complete.
  destruct (get_chunk_by_id cid s) as [chunk|]; [|discriminate].
  destruct (completed chunk) eqn:Hc; [discriminate|].
  destruct (filter _ _) eqn:E; [|discriminate].
  intros _. exists chunk. repeat split; try assumption.
  now apply filter_incomplete_nil.
Qed.

(** C2, as the code has it. When the gate passes, every direct dependency
    of the chunk is completed. When the chunk is present, not yet completed
    and has an incomplete direct dependency, the gate is [Blocked] with
    exactly the incomplete direct dependencies. A chunk that is already
    completed is reported as such, whatever its dependencies. *)
Theorem can_complete_gate (s : Store) (cid : Z) :
  let deps := get_chunk_dependencies cid s in
  (can_complete cid s = Passed -> Forall (fun dep => completed dep = true) deps)
  /\ (forall chunk,
        get_chunk_by_id cid s = Some chunk ->
        completed chunk = false ->
        Exists (fun dep => completed dep = false) deps ->
        can_complete cid s = Blocked (filter (fun d => negb (completed d)) deps))
  /\ (forall chunk,
        get_chunk_by_id cid s = Some chunk ->
        completed chunk = true ->
        can_complete cid s = AlreadyCompleted).
Proof.
  intros deps. repeat split.
  - intros H. apply can_complete_Passed in H. now destruct H as (chunk & _ & _ & H).
  - unfold can_complete. intros chunk -> -> Hex. fold deps.
    destruct (filter _ deps) eqn:E; [|reflexivity].
    apply filter_incomplete_nil in E. apply Exists_exists in Hex.
    destruct Hex as (dep & Hin & Hc). rewrite Forall_forall in E.
    specialize (E dep Hin). simpl in E. congruence.
  - unfold can_complete. now intros chunk -> ->.
Qed.

(** ** Edges that block and edges that do not *)

Lemma step_dependencies (s : Store) (op : operation) (d : Dependency) :
  In d (dependencies s) -> In d (dependencies (step s op)).
Proof.
  destruct op as [nm descr diff now| | |cid now|cid depends_on| | |cid now];
    simpl; auto.
  - unfold create_chunk. now destruct (_ && _).
  - unfold add_dependency, insert_dependency. destruct (existsb _ _); simpl; auto.
    intros H. apply in_or_app. now left.
  - unfold complete. destruct (can_complete cid s); simpl; auto.
    now destruct (0 <? _).
Qed.

Lemma run_edge (ops : list operation) (s : Store) (cid depends_on : Z) :
  edge s cid depends_on -> edge (run ops s) cid depends_on.
Proof.
  revert s. induction ops as [|op ops IH]; intros s H; [exact H|].
  simpl. apply IH. destruct H as (d & Hd & H). exists d. split; [|exact H].
  now apply step_dependencies.
Qed.

(** C4, as the code has it. Once a chunk has a self-loop edge it is never
    available again: after any further operations, the availability query
    does not return it and the gate does not pass for it. An edge to an id
    that no chunk has is dropped by the joins: a present, incomplete chunk
    all of whose edges are of that kind has no dependencies, passes the
    gate and is a candidate of the availability query. *)
Theorem self_loop_blocks_dangling_edge_does_not (s : Store) (cid : Z) :
  (edge s cid cid ->
   forall ops,
     (forall r, get_next_available_chunk (run ops s) = Some r -> id r <> cid)
     /\ can_complete cid (run ops s) <> Passed)
  /\ (forall chunk,
        get_chunk_by_id cid s = Some chunk ->
        completed chunk = false ->
        (forall depends_on, edge s cid depends_on -> ~ chunk_exists s depends_on) ->
        get_chunk_dependencies cid s = []
        /\ can_complete cid s = Passed
        /\ In chunk (candidates s)).
Proof.
  split.
  - intros Hloop ops. apply (run_edge ops) in Hloop. set (s' := run ops s) in *. split.
    + intros r Hr Hid. apply get_next_available_chunk_In, candidates_In in Hr.
      destruct Hr as (Hin & Hc & Hdeps). rewrite Forall_forall in Hdeps.
      assert (Hself : In r (get_chunk_dependencies (id r) s'))
        by (apply get_chunk_dependencies_In; split; [assumption | now rewrite Hid]).
      apply Hdeps in Hself. congruence.
    + intros Hpass. apply can_complete_Passed in Hpass.
      destruct Hpass as (chunk & Hget & Hc & Hdeps).
      apply get_chunk_by_id_Some in Hget. destruct Hget as [Hin Hid].
      rewrite Forall_forall in Hdeps.
      assert (Hself : In chunk (get_chunk_dependencies cid s'))
        by (apply get_chunk_dependencies_In; split; [assumption | now rewrite Hid]).
      apply Hdeps in Hself. congruence.
  - intros chunk Hget Hc Hdangling.
    assert (Hnil : get_chunk_dependencies cid s = []).
    { destruct (get_chunk_dependencies cid s) as [|dep l] eqn:E; [reflexivity|].
      assert (Hin : In dep (get_chunk_dependencies cid s)) by (rewrite E; now left).
      apply get_chunk_dependencies_In in Hin. destruct Hin as [Hin He].
      exfalso. apply (Hdangling _ He). now exists dep. }
    repeat split.
    + assumption.
    + unfold can_complete. now rewrite Hget, Hc, Hnil.
    + apply get_chunk_by_id_Some in Hget. destruct Hget as [Hin Hid].
      apply filter_In. split; [assumption|].
      unfold candidate. now rewrite Hc, Hid, Hnil.
Qed.

(** ** Invariants of sequences of calls *)

Lemma run_invariant (P : Store -> Prop) :
  (forall s op, P s -> P (step s op)) ->
  forall ops s, P s -> P (run ops s).
Proof.
  intros Hstep ops. induction ops as [|op ops IH]; intros s Hs; [exact Hs|].
  simpl. apply IH, Hstep, Hs.
Qed.

(** The rows of [chunks] after a call: the old rows, possibly completed,
    possibly followed by one created row. *)
Lemma complete_chunk_chunks (cid : Z) (now : timestamp) (s : Store) :
  chunks (snd (complete_chunk cid now s))
  = map (fun c => if id c =? cid then set_completed now c else c) (chunks s).
Proof. reflexivity. Qed.

Lemma complete_chunks (cid : Z) (now : timestamp) (s : Store) :
  chunks (snd (complete cid now s)) = chunks s
  \/ chunks (snd (complete cid now s)) = chunks (snd (complete_chunk cid now s)).
Proof.
  unfold complete. destruct (can_complete cid s); simpl; auto.
  destruct (0 <? _); simpl; auto.
Qed.

Lemma add_dependency_chunks (cid depends_on : Z) (s : Store) :
  chunks (snd (add_dependency cid depends_on s)) = chunks s.
Proof. unfold add_dependency, insert_dependency. now destruct (existsb _ _). Qed.

Lemma Forall_chunks_step (P : Chunk -> Prop) :
  (forall nm descr diff now rowid,
      1 <= diff <= 5 ->
      P (mkChunk rowid nm descr diff false (Some now) None)) ->
  (forall now c, P c -> P (set_completed now c)) ->
  forall s op, Forall P (chunks s) -> Forall P (chunks (step s op)).
Proof.
  intros Hcreate Hcomplete s op Hs.
  assert (Hmap : forall cid now,
             Forall P (chunks (snd (complete_chunk cid now s)))).
  { intros cid now. rewrite complete_chunk_chunks. apply Forall_forall.
    intros c Hin. apply in_map_iff in Hin. destruct Hin as (c0 & <- & Hin).
    rewrite Forall_forall in Hs. destruct (id c0 =? cid); auto. }
  destruct op as [nm descr diff now| | |cid now|cid depends_on| | |cid now];
    cbn [step]; auto.
  - unfold create_chunk.
    destruct (1 <=? diff) eqn:E1; destruct (diff <=? 5) eqn:E2; simpl; auto.
    apply Forall_app. split; [assumption|]. constructor; [|constructor].
    apply Hcreate. lia.
  - now rewrite add_dependency_chunks.
  - destruct (complete_chunks cid now s) as [-> | ->]; auto.
Qed.

Lemma Forall_chunks_run (P : Chunk -> Prop) :
  (forall nm descr diff now rowid,
      1 <= diff <= 5 ->
      P (mkChunk rowid nm descr diff false (Some now) None)) ->
  (forall now c, P c -> P (set_completed now c)) ->
  forall ops, Forall P (chunks (run ops init_database)).
Proof.
  intros Hcreate Hcomplete ops.
  apply (run_invariant (fun s => Forall P (chunks s))).
  - now apply Forall_chunks_step.
  - constructor.
Qed.

(** ** Creation *)

Lemma rowid_le_max (rowids : list Z) (x : Z) :
  In x rowids -> x <= fold_right Z.max 0 rowids.
Proof.
  induction rowids as [|y l IH]; simpl; [tauto|].
  intros [->|H]; [lia|]. specialize (IH H). lia.
Qed.

Lemma next_rowid_fresh (s : Store) :
  get_chunk_by_id (next_rowid (chunks_seq s) (map id (chunks s))) s = None.
Proof.
  apply get_chunk_by_id_None. intros (c & Hin & Hid).
  assert (H : id c <= fold_right Z.max 0 (map id (chunks s)))
    by (apply rowid_le_max; now apply in_map).
  unfold next_rowid in Hid. lia.
Qed.

Lemma find_app_r {A : Type} (f : A -> bool) (l1 l2 : list A) :
  find f l1 = None -> find f (l1 ++ l2) = find f l2.
Proof.
  induction l1 as [|x l IH]; simpl; [reflexivity|].
  destruct (f x); [discriminate | exact IH].
Qed.

Lemma find_app_l {A : Type} (f : A -> bool) (l1 l2 : list A) (x : A) :
  find f l1 = Some x -> find f (l1 ++ l2) = Some x.
Proof.
  induction l1 as [|y l IH]; simpl; [discriminate|].
  destruct (f y); [trivial | exact IH].
Qed.

(** A creation with a difficulty in range stores the row as given and
    returns its fresh id, under which the row is then found. *)
Lemma create_chunk_in_range (nm descr : string) (diff : Z)
    (now : timestamp) (s : Store) :
  1 <= diff <= 5 ->
  let rowid := next_rowid (chunks_seq s) (map id (chunks s)) in
  let row := mkChunk rowid nm descr diff false (Some now) None in
  create_chunk nm descr diff now s
  = (Return rowid,
     mkStore (chunks s ++ [row]) rowid (dependencies s) (dependencies_seq s))
  /\ get_chunk_by_id rowid (snd (create_chunk nm descr diff now s))
     = Some row.
Proof.
  intros H rowid row. unfold create_chunk.
  replace (1 <=? diff) with true by (symmetry; apply Z.leb_le; lia).
  replace (diff <=? 5) with true by (symmetry; apply Z.leb_le; lia).
  simpl. split; [reflexivity|].
  unfold get_chunk_by_id. simpl. rewrite find_app_r by apply next_rowid_fresh.
  simpl. fold rowid. now rewrite Z.eqb_refl.
Qed.

(** C3. A creation with a difficulty outside 1..5 raises (the CHECK
    constraint of the schema, an [sqlite3.IntegrityError]) and leaves the
    store as it was; and after any sequence of calls on a fresh database
    every chunk has its difficulty in 1..5. *)
Theorem create_chunk_difficulty_in_range :
  (forall nm descr diff now s,
      diff < 1 \/ 5 < diff ->
      create_chunk nm descr diff now s
      = (Raise (IntegrityError CHECK_difficulty_between_1_and_5), s))
  /\ (forall ops,
        Forall (fun c => 1 <= difficulty c <= 5) (chunks (run ops init_database))).
Proof.
  split.
  - intros nm descr diff now s H. unfold create_chunk.
    destruct (1 <=? diff) eqn:E1; destruct (diff <=? 5) eqn:E2; try reflexivity.
    apply Z.leb_le in E1. apply Z.leb_le in E2. lia.
  - apply Forall_chunks_run; simpl; auto.
Qed.

(** C9, as the code has it. [create_chunk] does not look at the name: with
    a difficulty in 1..5 the chunk is stored under the name given, the
    empty name included, and its id is returned. *)
Theorem create_chunk_stores_any_name (nm descr : string) (diff : Z)
    (now : timestamp) (s : Store) :
  1 <= diff <= 5 ->
  exists rowid s' c,
    create_chunk nm descr diff now s = (Return rowid, s')
    /\ get_chunk_by_id rowid s' = Some c
    /\ name c = nm.
Proof.
  intros H.
  destruct (create_chunk_in_range nm descr diff now s H) as [Hc Hg].
  rewrite Hc in Hg. simpl in Hg.
  eexists _, _, _. split; [exact Hc|]. split; [exact Hg | reflexivity].
Qed.

(** ** Dependency edges *)

(** The test of the UNIQUE constraint decides [edge]. *)
Lemma unique_violated_edge (s : Store) (cid depends_on : Z) :
  existsb (fun d => (chunk_id d =? cid) && (depends_on_chunk_id d =? depends_on))
          (dependencies s) = true
  <-> edge s cid depends_on.
Proof.
  unfold edge. rewrite existsb_exists.
  split; intros (d & Hd & H); exists d; split; try assumption.
  - apply andb_true_iff in H. now rewrite !Z.eqb_eq in H.
  - apply andb_true_iff. now rewrite !Z.eqb_eq.
Qed.

Lemma add_dependency_existing (s : Store) (cid depends_on : Z) :
  edge s cid depends_on -> add_dependency cid depends_on s = (false, s).
Proof.
  intros H. apply unique_violated_edge in H.
  unfold add_dependency, insert_dependency. now rewrite H.
Qed.

Lemma add_dependency_new (s : Store) (cid depends_on : Z) :
  ~ edge s cid depends_on ->
  let rowid := next_rowid (dependencies_seq s) (map dep_id (dependencies s)) in
  add_dependency cid depends_on s
  = (true,
     mkStore (chunks s) (chunks_seq s)
       (dependencies s ++ [mkDependency rowid cid depends_on]) rowid).
Proof.
  intros H rowid. unfold add_dependency, insert_dependency.
  destruct (existsb _ _) eqn:E; [|reflexivity].
  apply unique_violated_edge in E. contradiction.
Qed.

Lemma edge_dec (s : Store) (cid depends_on : Z) :
  edge s cid depends_on \/ ~ edge s cid depends_on.
Proof.
  rewrite <- unique_violated_edge. destruct (existsb _ _); auto.
Qed.

(** C5. For every pair of ids (integers that bind), whatever the first
    call of [add_dependency] on the pair did, a second call on the same
    pair returns [false] and leaves the store, and so the table of edges,
    exactly as the first call left it. *)
Theorem add_dependency_twice (s : Store) (cid depends_on : Z) :
  sqlite_integer cid ->
  sqlite_integer depends_on ->
  let s1 := snd (add_dependency cid depends_on s) in
  add_dependency cid depends_on s1 = (false, s1)
  /\ dependencies (snd (add_dependency cid depends_on s1)) = dependencies s1
  /\ List.length (dependencies (snd (add_dependency cid depends_on s1)))
     = List.length (dependencies s1).
Proof.
  intros _ _ s1.
  assert (H : add_dependency cid depends_on s1 = (false, s1)).
  { apply add_dependency_existing. subst s1.
    destruct (edge_dec s cid depends_on) as [He|He].
    - now rewrite add_dependency_existing.
    - rewrite add_dependency_new by assumption. simpl.
      eexists. split; [apply in_or_app; right; now left|]. now split. }
  rewrite H. auto.
Qed.

(** C8. [add_dependency] on a pair of ids (integers that bind) that is
    not yet an edge appends the edge and returns [true], whether or not
    either id is the id of a chunk: nothing about [chunks] is consulted,
    and no other table row changes. *)
Theorem add_dependency_unvalidated (s : Store) (cid depends_on : Z) :
  sqlite_integer cid ->
  sqlite_integer depends_on ->
  ~ edge s cid depends_on ->
  fst (add_dependency cid depends_on s) = true
  /\ edge (snd (add_dependency cid depends_on s)) cid depends_on
  /\ (exists d, dependencies (snd (add_dependency cid depends_on s))
                = dependencies s ++ [d])
  /\ chunks (snd (add_dependency cid depends_on s)) = chunks s.
Proof.
  intros _ _ H. rewrite add_dependency_new by assumption. simpl.
  repeat split.
  - eexists. split; [apply in_or_app; right; now left|]. now split.
  - eauto.
Qed.

(** ** Completion *)

Lemma find_map_id (cid j : Z) (now : timestamp) (l : list Chunk) :
  find (fun c => id c =? cid)
       (map (fun c => if id c =? j then set_completed now c else c) l)
  = option_map (fun c => if id c =? j then set_completed now c else c)
      (find (fun c => id c =? cid) l).
Proof.
  induction l as [|c l IH]; simpl; [reflexivity|].
  replace (id (if id c =? j then set_completed now c else c)) with (id c)
    by (now destruct (id c =? j)).
  destruct (id c =? cid); [reflexivity | exact IH].
Qed.

(** What [get_chunk_by_id] finds after a [complete_chunk]. *)
Lemma get_chunk_by_id_complete_chunk (cid j : Z) (now : timestamp) (s : Store) :
  get_chunk_by_id cid (snd (complete_chunk j now s))
  = option_map (fun c => if id c =? j then set_completed now c else c)
      (get_chunk_by_id cid s).
Proof. apply find_map_id. Qed.

(** [complete_chunk] tells whether some row has the id. *)
Lemma complete_chunk_found (cid : Z) (now : timestamp) (s : Store) :
  fst (complete_chunk cid now s) = true <-> chunk_exists s cid.
Proof.
  unfold complete_chunk, chunk_exists. simpl. rewrite Z.ltb_lt. split.
  - intros H. destruct (filter _ _) as [|c l] eqn:E; [simpl in H; lia|].
    assert (Hin : In c (filter (fun c => id c =? cid) (chunks s)))
      by (rewrite E; now left).
    apply filter_In in Hin. destruct Hin as [Hin Hid]. apply Z.eqb_eq in Hid.
    now exists c.
  - intros (c & Hin & Hid).
    assert (Hf : In c (filter (fun c => id c =? cid) (chunks s)))
      by (apply filter_In; split; [assumption | now apply Z.eqb_eq]).
    destruct (filter _ _); [destruct Hf | simpl; lia].
Qed.

(** A completed chunk is still found, and still completed, after a call. *)
Lemma step_completed (s : Store) (op : operation) (cid : Z) :
  (exists c, get_chunk_by_id cid s = Some c /\ completed c = true) ->
  exists c, get_chunk_by_id cid (step s op) = Some c /\ completed c = true.
Proof.
  intros (c & Hget & Hc).
  assert (Hcomplete : forall j now,
             exists c', get_chunk_by_id cid (snd (complete_chunk j now s)) = Some c'
                        /\ completed c' = true).
  { intros j now. rewrite get_chunk_by_id_complete_chunk, Hget. simpl.
    eexists. split; [reflexivity|]. now destruct (id c =? j). }
  destruct op as [nm descr diff now| | |j now|j depends_on| | |j now];
    cbn [step]; eauto.
  - unfold create_chunk. destruct (_ && _); simpl; eauto.
    exists c. split; [|assumption]. unfold get_chunk_by_id. simpl.
    now apply find_app_l.
  - exists c. split; [|assumption]. unfold get_chunk_by_id.
    now rewrite add_dependency_chunks.
  - unfold complete. specialize (Hcomplete j now).
    destruct (can_complete j s); try (cbn [snd]; eauto; fail).
    destruct (complete_chunk j now s) as [ok s']. cbn [snd] in Hcomplete.
    destruct ok; exact Hcomplete.
Qed.

(** C6. Once [get_chunk_by_id] shows a chunk completed, it shows it
    completed after every sequence of creations, completions, additions of
    dependencies, queries and [complete] commands. *)
Theorem completed_is_terminal (s : Store) (cid : Z) (c : Chunk) (ops : list operation) :
  get_chunk_by_id cid s = Some c ->
  completed c = true ->
  exists c', get_chunk_by_id cid (run ops s) = Some c' /\ completed c' = true.
Proof.
  intros Hget Hc.
  apply (run_invariant
           (fun s => exists c', get_chunk_by_id cid s = Some c' /\ completed c' = true)).
  - intros s0 op. apply step_completed.
  - eauto.
Qed.

(** C7. After any sequence of calls on a fresh database, a chunk has a
    [completed_at] exactly when it is completed. A successful creation
    appends a row that is not completed and has no [completed_at]; after
    [complete_chunk] every row of the given id is completed with the
    call's timestamp as [completed_at]. *)
Theorem completed_at_iff_completed :
  (forall ops,
      Forall (fun c => completed_at c <> None <-> completed c = true)
             (chunks (run ops init_database)))
  /\ (forall nm descr diff now s rowid s',
        create_chunk nm descr diff now s = (Return rowid, s') ->
        exists c, chunks s' = chunks s ++ [c]
                  /\ id c = rowid /\ completed c = false /\ completed_at c = None)
  /\ (forall cid now s,
        Forall (fun c => id c = cid -> completed c = true /\ completed_at c = Some now)
               (chunks (snd (complete_chunk cid now s)))).
Proof.
  repeat split.
  - apply Forall_chunks_run; simpl; intros; split; congruence.
  - intros nm descr diff now s rowid s'. unfold create_chunk.
    destruct (_ && _); [|discriminate]. intros H. injection H as <- <-.
    simpl. eexists. split; [reflexivity|]. auto.
  - intros cid now s. rewrite complete_chunk_chunks. apply Forall_forall.
    intros c Hin Hid. apply in_map_iff in Hin. destruct Hin as (c0 & <- & Hin).
    destruct (id c0 =? cid) eqn:E; [now split|].
    apply Z.eqb_neq in E. contradiction.
Qed.

(** C10. [complete_chunk] on a chunk that is already completed returns
    [true] again and the chunk then carries the new call's timestamp as
    [completed_at], whatever it carried before; and the returned value is
    [true] exactly when a chunk of that id exists. *)
Theorem complete_chunk_again (s : Store) (cid : Z) (now : timestamp) :
  (forall c,
      get_chunk_by_id cid s = Some c ->
      completed c = true ->
      fst (complete_chunk cid now s) = true
      /\ exists c', get_chunk_by_id cid (snd (complete_chunk cid now s)) = Some c'
                    /\ completed c' = true
                    /\ completed_at c' = Some now)
  /\ (fst (complete_chunk cid now s) = true <-> chunk_exists s cid).
Proof.
  split; [|apply complete_chunk_found].
  intros c Hget Hc. split.
  - apply complete_chunk_found. apply get_chunk_by_id_Some in Hget.
    exists c. exact Hget.
  - rewrite get_chunk_by_id_complete_chunk, Hget. simpl.
    apply get_chunk_by_id_Some in Hget. destruct Hget as [_ ->].
    rewrite Z.eqb_refl. eexists. split; [reflexivity|]. now split.
Qed.

(** ** The properties at concrete stores *)

(** Scenario D: no chunk, no next chunk. *)
Example next_available_empty : get_next_available_chunk init_database = None.
Proof. reflexivity. Qed.

(** Scenario E: equal difficulty, the chunk created first is returned. *)
Example next_available_tie :
  option_map id
    (get_next_available_chunk
       (run [Create_chunk "a" "first" 3 100; Create_chunk "b" "second" 3 101]
            init_database))
  = Some 1.
Proof. reflexivity. Qed.

Lemma can_complete_gate_witness :
  (can_complete 2 (run [Complete 1 200] two_chunks_one_edge) = Passed
   /\ Forall (fun dep => completed dep = true)
        (get_chunk_dependencies 2 (run [Complete 1 200] two_chunks_one_edge)))
  /\ (get_chunk_by_id 2 two_chunks_one_edge
      = Some (mkChunk 2 "Build ML Model" "Create a simple model" 4 false (Some 101) None)
      /\ Exists (fun dep => completed dep = false)
           (get_chunk_dependencies 2 two_chunks_one_edge)
      /\ can_complete 2 two_chunks_one_edge
         = Blocked (filter (fun d => negb (completed d))
                      (get_chunk_dependencies 2 two_chunks_one_edge)))
  /\ (get_chunk_by_id 1 completed_then_dependent
      = Some (mkChunk 1 "Learn Pandas" "Learn pandas basics" 2 true (Some 100) (Some 200))
      /\ can_complete 1 completed_then_dependent = AlreadyCompleted).
Proof.
  split; [|split].
  - split; [reflexivity|].
    apply (proj1 (can_complete_gate (run [Complete 1 200] two_chunks_one_edge) 2)).
    reflexivity.
  - split; [reflexivity|].
    assert (Hex : Exists (fun dep => completed dep = false)
                    (get_chunk_dependencies 2 two_chunks_one_edge))
      by (apply Exists_cons_hd; reflexivity).
    split; [exact Hex|].
    exact (proj1 (proj2 (can_complete_gate two_chunks_one_edge 2)) _ eq_refl eq_refl Hex).
  - split; [reflexivity|].
    exact (proj2 (proj2 (can_complete_gate completed_then_dependent 1)) _ eq_refl eq_refl).
Defined.

(** Against C2 as stated: chunk 1 is present and its direct dependency,
    chunk 2, is incomplete, yet the gate does not fail with the list of
    incomplete dependencies; it reports chunk 1 as already completed. *)
Lemma can_complete_completed_chunk_counterexample :
  get_chunk_by_id 1 completed_then_dependent
  = Some (mkChunk 1 "Learn Pandas" "Learn pandas basics" 2 true (Some 100) (Some 200))
  /\ filter (fun d => negb (completed d))
       (get_chunk_dependencies 1 completed_then_dependent)
     = [mkChunk 2 "Build ML Model" "Create a simple model" 4 false (Some 101) None]
  /\ can_complete 1 completed_then_dependent = AlreadyCompleted
  /\ can_complete 1 completed_then_dependent
     <> Blocked (filter (fun d => negb (completed d))
                   (get_chunk_dependencies 1 completed_then_dependent)).
Proof. repeat split. discriminate. Qed.

Lemma create_chunk_difficulty_in_range_witness :
  (0 < 1 \/ 5 < 0)
  /\ create_chunk "Learn Pandas" "Learn pandas basics" 0 100 init_database
     = (Raise (IntegrityError CHECK_difficulty_between_1_and_5), init_database).
Proof.
  assert (H : 0 < 1 \/ 5 < 0) by (left; reflexivity).
  split; [exact H|].
  exact (proj1 create_chunk_difficulty_in_range _ _ 0 100 init_database H).
Defined.

Lemma self_loop_blocks_dangling_edge_does_not_witness :
  (edge self_loop 1 1
   /\ (forall r,
         get_next_available_chunk (run [build_ml_model; Complete 1 200] self_loop) = Some r ->
         id r <> 1)
   /\ can_complete 1 (run [build_ml_model; Complete 1 200] self_loop) <> Passed)
  /\ (get_chunk_by_id 1 dangling_edge
      = Some (mkChunk 1 "Learn Pandas" "Learn pandas basics" 2 false (Some 100) None)
      /\ (forall depends_on,
            edge dangling_edge 1 depends_on -> ~ chunk_exists dangling_edge depends_on)
      /\ get_chunk_dependencies 1 dangling_edge = []
      /\ can_complete 1 dangling_edge = Passed
      /\ In (mkChunk 1 "Learn Pandas" "Learn pandas basics" 2 false (Some 100) None)
           (candidates dangling_edge)).
Proof.
  split.
  - assert (Hloop : edge self_loop 1 1)
      by (apply unique_violated_edge; reflexivity).
    split; [exact Hloop|].
    exact (proj1 (self_loop_blocks_dangling_edge_does_not self_loop 1) Hloop
             [build_ml_model; Complete 1 200]).
  - assert (Hdangling : forall depends_on,
               edge dangling_edge 1 depends_on -> ~ chunk_exists dangling_edge depends_on).
    { intros depends_on (d & Hd & _ & Ho). destruct Hd as [<-|[]]. simpl in Ho.
      subst depends_on. apply get_chunk_by_id_None. reflexivity. }
    split; [reflexivity|]. split; [exact Hdangling|].
    exact (proj2 (self_loop_blocks_dangling_edge_does_not dangling_edge 1)
             _ eq_refl eq_refl Hdangling).
Defined.

(** Against C4 as stated: chunk 1 has an edge to id 99, which no chunk
    has, and chunk 1 is returned by the availability query and passes
    the gate. *)
Lemma dangling_edge_counterexample :
  edge dangling_edge 1 99
  /\ ~ chunk_exists dangling_edge 99
  /\ get_next_available_chunk dangling_edge
     = Some (mkChunk 1 "Learn Pandas" "Learn pandas basics" 2 false (Some 100) None)
  /\ can_complete 1 dangling_edge = Passed.
Proof.
  split; [apply unique_violated_edge; reflexivity|].
  split; [apply get_chunk_by_id_None; reflexivity|].
  split; reflexivity.
Qed.

Lemma completed_is_terminal_witness :
  get_chunk_by_id 1 one_completed_chunk
  = Some (mkChunk 1 "Learn Pandas" "Learn pandas basics" 2 true (Some 100) (Some 200))
  /\ exists c',
       get_chunk_by_id 1
         (run [build_ml_model; Add_dependency 1 2; Complete 1 300;
               Complete_chunk 2 400; Get_next_available_chunk]
              one_completed_chunk) = Some c'
       /\ completed c' = true.
Proof.
  split; [reflexivity|].
  exact (completed_is_terminal one_completed_chunk 1 _ _ eq_refl eq_refl).
Defined.

Lemma completed_at_iff_completed_witness :
  (create_chunk "Learn Pandas" "Learn pandas basics" 2 100 init_database
   = (Return 1, run [learn_pandas] init_database)
   /\ exists c,
        chunks (run [learn_pandas] init_database) = chunks init_database ++ [c]
        /\ id c = 1 /\ completed c = false /\ completed_at c = None)
  /\ (let c := mkChunk 1 "Learn Pandas" "Learn pandas basics" 2 true (Some 100) (Some 200) in
      chunks (snd (complete_chunk 1 200 (run [learn_pandas] init_database))) = [c]
      /\ id c = 1
      /\ completed c = true /\ completed_at c = Some 200).
Proof.
  destruct completed_at_iff_completed as (_ & Hcreate & Hcomplete).
  split.
  - split; [reflexivity|].
    exact (Hcreate _ _ 2 100 init_database 1 _ eq_refl).
  - intros c. split; [reflexivity|]. split; [reflexivity|].
    exact (Forall_inv (Hcomplete 1 200 (run [learn_pandas] init_database)) eq_refl).
Defined.

Lemma add_dependency_twice_witness :
  sqlite_integer 2
  /\ sqlite_integer 1
  /\ add_dependency 2 1 (snd (add_dependency 2 1 (run [learn_pandas; build_ml_model]
                                                     init_database)))
     = (false, two_chunks_one_edge)
  /\ List.length (dependencies
                    (snd (add_dependency 2 1
                            (snd (add_dependency 2 1
                                    (run [learn_pandas; build_ml_model]
                                         init_database))))))
     = 1%nat.
Proof.
  assert (H2 : sqlite_integer 2) by (split; [discriminate | reflexivity]).
  assert (H1 : sqlite_integer 1) by (split; [discriminate | reflexivity]).
  split; [exact H2|]. split; [exact H1|].
  pose proof (add_dependency_twice (run [learn_pandas; build_ml_model] init_database)
                2 1 H2 H1) as (Hsecond & _ & Hlength).
  split; [exact Hsecond | exact Hlength].
Defined.

Lemma add_dependency_unvalidated_witness :
  sqlite_integer 7
  /\ sqlite_integer 9
  /\ ~ edge (run [learn_pandas] init_database) 7 9
  /\ ~ chunk_exists (run [learn_pandas] init_database) 7
  /\ ~ chunk_exists (run [learn_pandas] init_database) 9
  /\ fst (add_dependency 7 9 (run [learn_pandas] init_database)) = true
  /\ edge (snd (add_dependency 7 9 (run [learn_pandas] init_database))) 7 9
  /\ (exists d, dependencies (snd (add_dependency 7 9 (run [learn_pandas] init_database)))
                = dependencies (run [learn_pandas] init_database) ++ [d])
  /\ chunks (snd (add_dependency 7 9 (run [learn_pandas] init_database)))
     = chunks (run [learn_pandas] init_database).
Proof.
  assert (Hnew : ~ edge (run [learn_pandas] init_database) 7 9)
    by (intros H; apply unique_violated_edge in H; discriminate H).
  assert (H7 : sqlite_integer 7) by (split; [discriminate | reflexivity]).
  assert (H9 : sqlite_integer 9) by (split; [discriminate | reflexivity]).
  split; [exact H7|]. split; [exact H9|].
  split; [exact Hnew|].
  split; [apply get_chunk_by_id_None; reflexivity|].
  split; [apply get_chunk_by_id_None; reflexivity|].
  exact (add_dependency_unvalidated _ 7 9 H7 H9 Hnew).
Defined.

Lemma create_chunk_stores_any_name_witness :
  1 <= 3 <= 5
  /\ exists rowid s' c,
       create_chunk EmptyString "no name" 3 100 init_database = (Return rowid, s')
       /\ get_chunk_by_id rowid s' = Some c
       /\ name c = EmptyString.
Proof.
  assert (H : 1 <= 3 <= 5) by (split; discriminate).
  split; [exact H|].
  exact (create_chunk_stores_any_name EmptyString "no name" 3 100 init_database H).
Defined.

(** Against C9 as stated: a creation with the empty name does not fail;
    it returns id 1 and the chunk is stored with the empty name. *)
Lemma create_chunk_empty_name_counterexample :
  create_chunk EmptyString "no name" 3 100 init_database
  = (Return 1,
     mkStore [mkChunk 1 EmptyString "no name" 3 false (Some 100) None] 1 [] 0).
Proof. reflexivity. Qed.

Lemma complete_chunk_again_witness :
  get_chunk_by_id 1 one_completed_chunk
  = Some (mkChunk 1 "Learn Pandas" "Learn pandas basics" 2 true (Some 100) (Some 200))
  /\ fst (complete_chunk 1 300 one_completed_chunk) = true
  /\ exists c',
       get_chunk_by_id 1 (snd (complete_chunk 1 300 one_completed_chunk)) = Some c'
       /\ completed c' = true
       /\ completed_at c' = Some 300.
Proof.
  split; [reflexivity|].
  exact (proj1 (complete_chunk_again one_completed_chunk 1 300) _ eq_refl eq_refl).
Defined.

(** ** More about [ORDER BY] and the listing of all chunks *)

Section Order_by_sorted.
Context {A : Type} (le : A -> A -> bool).

Lemma insert_row_Permutation (x : A) (l : list A) :
  Permutation (insert_row le x l) (x :: l).
Proof.
  induction l as [|y l IH]; simpl; [reflexivity|].
  destruct (le x y); [reflexivity|].
  rewrite IH. apply perm_swap.
Qed.

Lemma order_by_Permutation (l : list A) : Permutation (order_by le l) l.
Proof.
  induction l as [|x l IH]; simpl; [reflexivity|].
  rewrite insert_row_Permutation. now apply perm_skip.
Qed.

Hypothesis le_total : forall a b, le a b = true \/ le b a = true.
Hypothesis le_trans : forall a b c, le a b = true -> le b c = true -> le a c = true.

Lemma insert_row_sorted (x : A) (l : list A) :
  StronglySorted (fun a b => le a b = true) l ->
  StronglySorted (fun a b => le a b = true) (insert_row le x l).
Proof.
  induction 1 as [|y l Hs IH Hy]; simpl.
  - constructor; constructor.
  - destruct (le x y) eqn:E.
    + constructor; [now constructor|]. constructor; [assumption|].
      eapply Forall_impl; [|exact Hy]. intros z Hz. now apply (le_trans x y z).
    + constructor; [assumption|].
      assert (Hyx : le y x = true) by (destruct (le_total x y); congruence).
      apply Forall_forall. intros z Hz.
      apply (Permutation_in _ (insert_row_Permutation x l)) in Hz.
      destruct Hz as [<-|Hz]; [assumption|].
      rewrite Forall_forall in Hy. now apply Hy.
Qed.

Lemma order_by_sorted (l : list A) :
  StronglySorted (fun a b => le a b = true) (order_by le l).
Proof.
  induction l as [|x l IH]; simpl; [constructor|]. now apply insert_row_sorted.
Qed.
End Order_by_sorted.

(** X1. [get_all_chunks] returns every row of [chunks] exactly once, each
    chunk before all chunks created no later than it: newest first, rows
    without a creation time last. *)
Theorem get_all_chunks_newest_first (s : Store) :
  Permutation (get_all_chunks s) (chunks s)
  /\ StronglySorted
       (fun a b => timestamp_le (created_at b) (created_at a) = true)
       (get_all_chunks s).
Proof.
  split; [apply order_by_Permutation|].
  apply (order_by_sorted created_at_desc).
  - intros a b. apply timestamp_le_total.
  - intros a b c Hab Hbc. unfold created_at_desc in *.
    eapply timestamp_le_trans; eassumption.
Qed.

(** ** Ids of chunks *)

Lemma fold_max_bound (l : list Z) (m : Z) :
  0 <= m -> (forall x, In x l -> x <= m) -> fold_right Z.max 0 l <= m.
Proof.
  intros Hm. induction l as [|y l IH]; simpl; intros H; [assumption|].
  apply Z.max_lub; [apply H; now left|]. apply IH. intros x Hx. apply H. now right.
Qed.

Lemma next_rowid_sequential (n : nat) :
  next_rowid (Z.of_nat n) (map Z.of_nat (seq 1 n)) = Z.of_nat (S n).
Proof.
  unfold next_rowid.
  assert (H : fold_right Z.max 0 (map Z.of_nat (seq 1 n)) <= Z.of_nat n).
  { apply fold_max_bound; [lia|]. intros x Hx. apply in_map_iff in Hx.
    destruct Hx as (k & <- & Hk). apply in_seq in Hk. lia. }
  lia.
Qed.

Lemma map_id_completed (cid : Z) (now : timestamp) (l : list Chunk) :
  map id (map (fun c => if id c =? cid then set_completed now c else c) l) = map id l.
Proof.
  rewrite map_map. apply map_ext. intros c. now destruct (id c =? cid).
Qed.

Lemma sequential_ids_complete_chunk (cid : Z) (now : timestamp) (s : Store) :
  sequential_ids s -> sequential_ids (snd (complete_chunk cid now s)).
Proof.
  unfold sequential_ids. simpl. rewrite map_id_completed, length_map. trivial.
Qed.

Lemma sequential_ids_step (s : Store) (op : operation) :
  sequential_ids s -> sequential_ids (step s op).
Proof.
  intros H.
  destruct op as [nm descr diff now| | |cid now|cid depends_on| | |cid now];
    cbn [step]; auto.
  - unfold create_chunk. destruct (_ && _); [|exact H].
    destruct H as [Hids Hseq]. unfold sequential_ids. simpl.
    rewrite Hseq, Hids, next_rowid_sequential, length_app, map_app. simpl.
    replace (List.length (chunks s) + 1)%nat with (S (List.length (chunks s))) by lia.
    split; [|reflexivity].
    rewrite seq_S, map_app, Hids. reflexivity.
  - now apply sequential_ids_complete_chunk.
  - unfold sequential_ids. unfold add_dependency, insert_dependency.
    now destruct (existsb _ _).
  - unfold complete. destruct (can_complete cid s); try exact H.
    pose proof (sequential_ids_complete_chunk cid now s H) as H'.
    destruct (complete_chunk cid now s) as [ok s']. now destruct ok.
Qed.

Lemma sequential_ids_run (ops : list operation) :
  sequential_ids (run ops init_database).
Proof.
  apply (run_invariant sequential_ids).
  - intros s op. apply sequential_ids_step.
  - split; reflexivity.
Qed.

Lemma sequential_ids_NoDup (s : Store) :
  sequential_ids s -> NoDup (map id (chunks s)).
Proof.
  intros [-> _]. apply Injective_map_NoDup; [|apply seq_NoDup].
  intros a b. apply Nat2Z.inj.
Qed.

(** X2. On a database that started fresh, the chunks carry the ids
    1, 2, ..., n in the order of their creation, whatever calls were made
    (failed creations use up no id), so no two chunks share an id; and the
    next successful creation returns n + 1. *)
Theorem ids_are_sequential (ops : list operation) :
  let s := run ops init_database in
  let n := List.length (chunks s) in
  map id (chunks s) = map Z.of_nat (seq 1 n)
  /\ NoDup (map id (chunks s))
  /\ forall nm descr diff now,
       1 <= diff <= 5 ->
       fst (create_chunk nm descr diff now s) = Return (Z.of_nat (S n)).
Proof.
  intros s n. pose proof (sequential_ids_run ops) as H. fold s in H.
  split; [exact (proj1 H)|]. split; [now apply sequential_ids_NoDup|].
  intros nm descr diff now Hd.
  destruct (create_chunk_in_range nm descr diff now s Hd) as [-> _]. simpl.
  destruct H as [-> ->]. now rewrite next_rowid_sequential.
Qed.

(** ** Looking chunks up *)

Lemma find_unique_id (l : list Chunk) (c : Chunk) :
  NoDup (map id l) -> In c l -> find (fun x => id x =? id c) l = Some c.
Proof.
  induction l as [|y l IH]; simpl; intros Hnd Hin; [destruct Hin|].
  inversion Hnd as [|? ? Hy Hl]; subst.
  destruct Hin as [->|Hin]; [now rewrite Z.eqb_refl|].
  destruct (id y =? id c) eqn:E; [|now apply IH].
  apply Z.eqb_eq in E. exfalso. apply Hy. rewrite E. now apply in_map.
Qed.

Lemma get_chunk_by_id_In (ops : list operation) (c : Chunk) :
  In c (chunks (run ops init_database)) ->
  get_chunk_by_id (id c) (run ops init_database) = Some c.
Proof.
  apply find_unique_id, sequential_ids_NoDup, sequential_ids_run.
Qed.

(** X3. On a database that started fresh, [get_chunk_by_id] returns a
    chunk for an id exactly when that chunk is a row of [chunks] with that
    id: every stored chunk is found under its own id, and nothing else is. *)
Theorem get_chunk_by_id_iff_stored (ops : list operation) (cid : Z) (c : Chunk) :
  get_chunk_by_id cid (run ops init_database) = Some c
  <-> In c (chunks (run ops init_database)) /\ id c = cid.
Proof.
  split; [apply get_chunk_by_id_Some|].
  intros [Hin <-]. now apply get_chunk_by_id_In.
Qed.

(** X4. On any store, a creation with a difficulty in 1..5 returns an id
    under which nothing was found before and the new chunk is found after,
    with the fields given, not completed and created at the call's clock
    reading; lookups of every other id, and the dependency table, are as
    before. *)
Theorem create_chunk_then_get (nm descr : string) (diff : Z) (now : timestamp)
    (s : Store) :
  1 <= diff <= 5 ->
  exists rowid,
    fst (create_chunk nm descr diff now s) = Return rowid
    /\ get_chunk_by_id rowid s = None
    /\ get_chunk_by_id rowid (snd (create_chunk nm descr diff now s))
       = Some (mkChunk rowid nm descr diff false (Some now) None)
    /\ (forall cid, cid <> rowid ->
          get_chunk_by_id cid (snd (create_chunk nm descr diff now s))
          = get_chunk_by_id cid s)
    /\ dependencies (snd (create_chunk nm descr diff now s)) = dependencies s.
Proof.
  intros H. destruct (create_chunk_in_range nm descr diff now s H) as [Hc Hg].
  exists (next_rowid (chunks_seq s) (map id (chunks s))).
  split; [now rewrite Hc|]. split; [apply next_rowid_fresh|].
  split; [exact Hg|]. rewrite Hc. simpl. split; [|reflexivity].
  intros cid Hne. unfold get_chunk_by_id. simpl.
  destruct (find (fun c => id c =? cid) (chunks s)) as [c|] eqn:E.
  - now apply find_app_l.
  - rewrite find_app_r by assumption. simpl.
    destruct (_ =? cid) eqn:E'; [|reflexivity].
    apply Z.eqb_eq in E'. congruence.
Qed.

Lemma complete_chunk_unknown (cid : Z) (now : timestamp) (s : Store) :
  get_chunk_by_id cid s = None -> complete_chunk cid now s = (false, s).
Proof.
  intros Hnone.
  assert (Hno : forall c, In c (chunks s) -> (id c =? cid) = false)
    by (intros c; apply (find_none _ _ Hnone)).
  unfold complete_chunk. f_equal.
  - replace (filter (fun c => id c =? cid) (chunks s)) with (@nil Chunk); [reflexivity|].
    symmetry. destruct (filter _ _) as [|c l] eqn:E; [reflexivity|].
    assert (Hin : In c (filter (fun c => id c =? cid) (chunks s)))
      by (rewrite E; now left).
    apply filter_In in Hin. destruct Hin as [Hin Hid].
    rewrite (Hno c Hin) in Hid. discriminate.
  - replace (map (fun c => if id c =? cid then set_completed now c else c) (chunks s))
      with (chunks s); [now destruct s|].
    rewrite <- (map_id (chunks s)) at 1. apply map_ext_in.
    intros c Hin. now rewrite (Hno c Hin).
Qed.

(** X5. For an id (an integer that binds) that no chunk has,
    [complete_chunk] returns [False] and the [complete] command exits with
    "not found"; both leave the store exactly as it was. *)
Theorem unknown_id_changes_nothing (cid : Z) (now : timestamp) (s : Store) :
  sqlite_integer cid ->
  get_chunk_by_id cid s = None ->
  complete_chunk cid now s = (false, s)
  /\ complete cid now s = (Exit_not_found, s).
Proof.
  intros _ H. split; [now apply complete_chunk_unknown|].
  unfold complete, can_complete. now rewrite H.
Qed.

(** ** Fields that never change *)

Lemma same_fixed_fields_refl (c : Chunk) : same_fixed_fields c c.
Proof. repeat split. Qed.

Lemma same_fixed_fields_set_completed (now : timestamp) (j : Z) (c c' : Chunk) :
  same_fixed_fields c c' ->
  same_fixed_fields c (if id c' =? j then set_completed now c' else c').
Proof. now destruct (id c' =? j). Qed.

Lemma step_fixed_fields (s : Store) (op : operation) (cid : Z) (c : Chunk) :
  (exists c', get_chunk_by_id cid s = Some c' /\ same_fixed_fields c c') ->
  exists c', get_chunk_by_id cid (step s op) = Some c' /\ same_fixed_fields c c'.
Proof.
  intros (c' & Hget & Hsame).
  assert (Hcomplete : forall j now,
             exists c'', get_chunk_by_id cid (snd (complete_chunk j now s)) = Some c''
                         /\ same_fixed_fields c c'').
  { intros j now. rewrite get_chunk_by_id_complete_chunk, Hget. simpl.
    eexists. split; [reflexivity|]. now apply same_fixed_fields_set_completed. }
  destruct op as [nm descr diff now| | |j now|j depends_on| | |j now];
    cbn [step]; eauto.
  - unfold create_chunk. destruct (_ && _); simpl; eauto.
    exists c'. split; [|assumption]. unfold get_chunk_by_id. simpl.
    now apply find_app_l.
  - exists c'. split; [|assumption]. unfold get_chunk_by_id.
    now rewrite add_dependency_chunks.
  - unfold complete. specialize (Hcomplete j now).
    destruct (can_complete j s); try (cbn [snd]; eauto; fail).
    destruct (complete_chunk j now s) as [ok s']. cbn [snd] in Hcomplete.
    destruct ok; exact Hcomplete.
Qed.

(** X6. Whatever calls follow, a chunk stays found under its id with the
    same id, name, description, difficulty and creation time: only
    [completed] and [completed_at] are ever updated, and no chunk is
    deleted. *)
Theorem fixed_fields_never_change (s : Store) (cid : Z) (c : Chunk)
    (ops : list operation) :
  get_chunk_by_id cid s = Some c ->
  exists c', get_chunk_by_id cid (run ops s) = Some c' /\ same_fixed_fields c c'.
Proof.
  intros Hget.
  apply (run_invariant
           (fun s => exists c', get_chunk_by_id cid s = Some c' /\ same_fixed_fields c c')).
  - intros s0 op. apply step_fixed_fields.
  - exists c. split; [assumption | apply same_fixed_fields_refl].
Qed.

(** ** The dependency table *)

Lemma edge_pair (s : Store) (cid depends_on : Z) :
  edge s cid depends_on <-> In (cid, depends_on) (map pair (dependencies s)).
Proof.
  unfold edge. rewrite in_map_iff. unfold pair.
  split; intros (d & H1 & H2); exists d.
  - destruct H2 as [<- <-]. now split.
  - injection H1 as <- <-. auto.
Qed.

Lemma NoDup_snoc {A : Type} (l : list A) (x : A) :
  NoDup l -> ~ In x l -> NoDup (l ++ [x]).
Proof.
  intros Hl Hx. apply NoDup_app; [assumption | repeat constructor; intros [] |].
  intros a Ha [<-|[]]. contradiction.
Qed.

Lemma unique_pairs_step (s : Store) (op : operation) :
  NoDup (map pair (dependencies s)) -> NoDup (map pair (dependencies (step s op))).
Proof.
  intros H.
  destruct op as [nm descr diff now| | |cid now|cid depends_on| | |cid now];
    cbn [step]; auto.
  - unfold create_chunk. now destruct (_ && _).
  - destruct (edge_dec s cid depends_on) as [He|He].
    + now rewrite add_dependency_existing.
    + rewrite add_dependency_new by assumption. simpl. rewrite map_app. simpl.
      apply NoDup_snoc; [assumption|]. intros Hin. apply He, edge_pair. exact Hin.
  - unfold complete. destruct (can_complete cid s); try exact H.
    simpl. now destruct (0 <? _).
Qed.

(** X7. On a database that started fresh, no pair
    (chunk_id, depends_on_chunk_id) occurs in two rows of [dependencies],
    whatever calls were made. *)
Theorem dependency_pairs_unique (ops : list operation) :
  NoDup (map pair (dependencies (run ops init_database))).
Proof.
  apply (run_invariant (fun s => NoDup (map pair (dependencies s)))).
  - intros s op. apply unique_pairs_step.
  - constructor.
Qed.

(** The rows selected by id from rows of distinct ids have distinct ids. *)
Lemma selected_ids_NoDup (target : Z) (rows : list Chunk) :
  NoDup (map id rows) ->
  NoDup (map id (filter (fun c => id c =? target) rows)).
Proof.
  intros Hrows. induction rows as [|c rows IH]; simpl; [constructor|].
  simpl in Hrows. apply NoDup_cons_iff in Hrows. destruct Hrows as [Hc Hrows].
  destruct (id c =? target); simpl; [|now apply IH].
  apply NoDup_cons; [|now apply IH].
  intros Hin. apply Hc. apply in_map_iff in Hin. destruct Hin as (y & Hy & Hin).
  apply filter_In in Hin. rewrite <- Hy. apply in_map. tauto.
Qed.

Lemma join_NoDup (cid : Z) (l : list Chunk) (ds : list Dependency) :
  NoDup (map id l) ->
  NoDup (map pair ds) ->
  NoDup (map id
           (flat_map
              (fun d =>
                 if chunk_id d =? cid
                 then filter (fun c => id c =? depends_on_chunk_id d) l
                 else [])
              ds)).
Proof.
  intros Hl. induction ds as [|d ds IH]; simpl; intros Hds; [constructor|].
  inversion Hds as [|? ? Hd Hds']; subst. rewrite map_app.
  apply NoDup_app.
  - destruct (chunk_id d =? cid); [now apply selected_ids_NoDup | constructor].
  - now apply IH.
  - intros a Ha Hb. apply Hd.
    destruct (chunk_id d =? cid) eqn:E; [|destruct Ha].
    apply Z.eqb_eq in E.
    apply in_map_iff in Ha. destruct Ha as (x & <- & Hx).
    apply filter_In in Hx. destruct Hx as [_ Hx]. apply Z.eqb_eq in Hx.
    apply in_map_iff in Hb. destruct Hb as (y & Hxy & Hy).
    apply in_flat_map in Hy. destruct Hy as (d' & Hd' & Hy).
    destruct (chunk_id d' =? cid) eqn:E'; [|destruct Hy].
    apply Z.eqb_eq in E'. apply filter_In in Hy. destruct Hy as [_ Hy].
    apply Z.eqb_eq in Hy.
    apply in_map_iff. exists d'. split; [|assumption].
    unfold pair. f_equal; congruence.
Qed.

(** X8. On a database that started fresh, the chunks that
    [get_chunk_dependencies] returns have pairwise different ids: no
    dependency is listed twice. *)
Theorem get_chunk_dependencies_no_duplicates (ops : list operation) (cid : Z) :
  NoDup (map id (get_chunk_dependencies cid (run ops init_database)))
  /\ NoDup (get_chunk_dependencies cid (run ops init_database)).
Proof.
  assert (H : NoDup (map id (get_chunk_dependencies cid (run ops init_database)))).
  { apply join_NoDup.
    - apply sequential_ids_NoDup, sequential_ids_run.
    - apply (run_invariant (fun s => NoDup (map pair (dependencies s)))).
      + intros s op. apply unique_pairs_step.
      + constructor. }
  split; [exact H | exact (NoDup_map_inv _ _ H)].
Qed.

Lemma edge_add_dependency (s : Store) (cid depends_on a b : Z) :
  edge (snd (add_dependency cid depends_on s)) a b
  <-> edge s a b \/ (a = cid /\ b = depends_on).
Proof.
  destruct (edge_dec s cid depends_on) as [He|He].
  - rewrite add_dependency_existing by assumption. simpl.
    split; [auto|]. intros [H|[-> ->]]; assumption.
  - rewrite add_dependency_new by assumption.
    rewrite !edge_pair. simpl. rewrite map_app, in_app_iff. simpl. unfold pair at 2.
    simpl. split.
    + intros [H|[H|[]]]; [auto|]. injection H as <- <-. auto.
    + intros [H|[-> ->]]; auto.
Qed.

(** X9. After [add_dependency], whether it returned [True] or [False],
    the dependencies of the chunk are those it had before together with
    every chunk that has the id depended on (none when no chunk has it);
    the dependencies of every other id are unchanged, as are all chunks. *)
Theorem add_dependency_then_get (s : Store) (cid depends_on : Z) :
  let s' := snd (add_dependency cid depends_on s) in
  (forall x,
      In x (get_chunk_dependencies cid s')
      <-> In x (get_chunk_dependencies cid s) \/ (In x (chunks s) /\ id x = depends_on))
  /\ (forall other x,
        other <> cid ->
        (In x (get_chunk_dependencies other s') <-> In x (get_chunk_dependencies other s)))
  /\ chunks s' = chunks s.
Proof.
  intros s'. subst s'. split; [|split].
  - intros x.
    rewrite !get_chunk_dependencies_In, add_dependency_chunks, edge_add_dependency.
    split.
    + intros [Hin [He|[_ He]]]; auto.
    + intros [[Hin He]|[Hin He]]; auto.
  - intros other x Hne.
    rewrite !get_chunk_dependencies_In, add_dependency_chunks, edge_add_dependency.
    split.
    + intros [Hin [He|[He _]]]; [auto | contradiction].
    + intros [Hin He]; auto.
  - apply add_dependency_chunks.
Qed.

(** ** Completing through the gate *)

Lemma filter_map_completed (t j : Z) (now : timestamp) (l : list Chunk) :
  filter (fun c => id c =? t)
         (map (fun c => if id c =? j then set_completed now c else c) l)
  = map (fun c => if id c =? j then set_completed now c else c)
        (filter (fun c => id c =? t) l).
Proof.
  induction l as [|c l IH]; simpl; [reflexivity|].
  replace (id (if id c =? j then set_completed now c else c)) with (id c)
    by (now destruct (id c =? j)).
  destruct (id c =? t); simpl; now rewrite IH.
Qed.

(** The dependencies after a [complete_chunk] are the dependencies before,
    those of the completed id now completed. *)
Lemma get_chunk_dependencies_complete_chunk (cid j : Z) (now : timestamp) (s : Store) :
  get_chunk_dependencies cid (snd (complete_chunk j now s))
  = map (fun c => if id c =? j then set_completed now c else c)
        (get_chunk_dependencies cid s).
Proof.
  unfold get_chunk_dependencies. simpl.
  induction (dependencies s) as [|d ds IH]; simpl; [reflexivity|].
  rewrite map_app, IH. f_equal.
  destruct (chunk_id d =? cid); [apply filter_map_completed | reflexivity].
Qed.

Lemma completed_if_set_completed (j : Z) (now : timestamp) (c : Chunk) :
  completed c = true \/ id c = j ->
  completed (if id c =? j then set_completed now c else c) = true.
Proof.
  intros [H| ->]; [now destruct (id c =? j) | now rewrite Z.eqb_refl].
Qed.

Lemma complete_Passed (cid : Z) (now : timestamp) (s : Store) :
  can_complete cid s = Passed ->
  complete cid now s = (Return_completed, snd (complete_chunk cid now s)).
Proof.
  intros Hpass. unfold complete. rewrite Hpass.
  apply can_complete_Passed in Hpass. destruct Hpass as (chunk & Hget & _).
  assert (Hok : fst (complete_chunk cid now s) = true).
  { apply complete_chunk_found. apply get_chunk_by_id_Some in Hget. now exists chunk. }
  destruct (complete_chunk cid now s) as [ok s']. simpl in *. now subst ok.
Qed.

Lemma complete_not_Passed (cid : Z) (now : timestamp) (s : Store) :
  can_complete cid s <> Passed ->
  snd (complete cid now s) = s /\ fst (complete cid now s) <> Return_completed.
Proof.
  intros H. unfold complete.
  destruct (can_complete cid s); simpl; try (split; [reflexivity | discriminate]).
  contradiction.
Qed.

Lemma gate_dec (g : gate) : g = Passed \/ g <> Passed.
Proof. destruct g; auto; right; discriminate. Qed.

(** X10. The [complete] command never ends in "Failed to complete"; it
    changes the store only when it ends in "Completed", which it does
    exactly when the gate passes; and then the chunk is found completed,
    with the call's clock reading as [completed_at]. *)
Theorem complete_command_outcome (cid : Z) (now : timestamp) (s : Store) :
  fst (complete cid now s) <> Return_failed_to_complete
  /\ (fst (complete cid now s) = Return_completed <-> can_complete cid s = Passed)
  /\ (fst (complete cid now s) <> Return_completed -> snd (complete cid now s) = s)
  /\ (fst (complete cid now s) = Return_completed ->
      exists c', get_chunk_by_id cid (snd (complete cid now s)) = Some c'
                 /\ completed c' = true /\ completed_at c' = Some now).
Proof.
  destruct (gate_dec (can_complete cid s)) as [Hp|Hp].
  - rewrite (complete_Passed cid now s Hp). cbn [fst snd].
    split; [discriminate|]. split; [tauto|]. split; [congruence|]. intros _.
    apply can_complete_Passed in Hp. destruct Hp as (chunk & Hget & _).
    rewrite get_chunk_by_id_complete_chunk, Hget. simpl.
    apply get_chunk_by_id_Some in Hget. destruct Hget as [_ ->].
    rewrite Z.eqb_refl. eexists. split; [reflexivity|]. now split.
  - destruct (complete_not_Passed cid now s Hp) as [Hs Ho].
    split; [|split; [|split]].
    + unfold complete. destruct (can_complete cid s); simpl; try discriminate.
      contradiction.
    + split; intros H; contradiction.
    + intros _. exact Hs.
    + intros H. contradiction.
Qed.

Lemma dependency_closed_complete (cid : Z) (now : timestamp) (s : Store) :
  dependency_closed s -> dependency_closed (snd (complete cid now s)).
Proof.
  intros Hclosed.
  destruct (gate_dec (can_complete cid s)) as [Hp|Hp].
  - rewrite (complete_Passed cid now s Hp). cbn [snd].
    apply can_complete_Passed in Hp. destruct Hp as (chunk & _ & _ & Hdeps).
    intros c' Hin Hc'. rewrite complete_chunk_chunks in Hin.
    apply in_map_iff in Hin. destruct Hin as (c & Hf & Hin).
    assert (Hid : id c' = id c) by (subst c'; now destruct (id c =? cid)).
    rewrite Hid, get_chunk_dependencies_complete_chunk.
    apply Forall_map, Forall_forall. intros dep Hdep.
    apply completed_if_set_completed. left.
    destruct (id c =? cid) eqn:E.
    + apply Z.eqb_eq in E. rewrite E in Hdep.
      rewrite Forall_forall in Hdeps. now apply Hdeps.
    + subst c'. specialize (Hclosed c Hin Hc'). rewrite Forall_forall in Hclosed.
      now apply Hclosed.
  - now rewrite (proj1 (complete_not_Passed cid now s Hp)).
Qed.

Lemma chunk_exists_complete_chunk (cid j : Z) (now : timestamp) (s : Store) :
  chunk_exists s cid -> chunk_exists (snd (complete_chunk j now s)) cid.
Proof.
  intros (c & Hin & Hid).
  exists (if id c =? j then set_completed now c else c). split.
  - rewrite complete_chunk_chunks. apply in_map_iff. now exists c.
  - now destruct (id c =? j).
Qed.

Lemma targets_exist_complete (cid : Z) (now : timestamp) (s : Store) :
  targets_exist s -> targets_exist (snd (complete cid now s)).
Proof.
  intros Ht.
  destruct (gate_dec (can_complete cid s)) as [Hp|Hp].
  - rewrite (complete_Passed cid now s Hp). cbn [snd].
    intros d Hd. apply chunk_exists_complete_chunk. now apply Ht.
  - now rewrite (proj1 (complete_not_Passed cid now s Hp)).
Qed.

(** After a creation on a store whose edges all lead to chunks, the new
    chunk, whose id is fresh, is nobody's dependency. *)
Lemma create_chunk_keeps_closed (nm descr : string) (diff : Z) (now : timestamp)
    (s : Store) :
  targets_exist s ->
  dependency_closed s ->
  targets_exist (snd (create_chunk nm descr diff now s))
  /\ dependency_closed (snd (create_chunk nm descr diff now s)).
Proof.
  intros Ht Hclosed. unfold create_chunk.
  destruct (_ && _); [|now split]. cbn [snd]. split.
  - intros d Hd. destruct (Ht d Hd) as (c & Hin & Hid).
    exists c. split; [|assumption]. simpl. apply in_or_app. now left.
  - intros c Hin Hc. simpl in Hin. apply in_app_or in Hin.
    destruct Hin as [Hin|[<-|[]]]; [|discriminate Hc].
    apply Forall_forall. intros dep Hdep.
    apply get_chunk_dependencies_In in Hdep. destruct Hdep as [Hdin He].
    simpl in Hdin. apply in_app_or in Hdin. destruct Hdin as [Hdin|[<-|[]]].
    + specialize (Hclosed c Hin Hc). rewrite Forall_forall in Hclosed.
      apply Hclosed. apply get_chunk_dependencies_In. split; [assumption|].
      exact He.
    + exfalso. destruct He as (d & Hd & _ & Htarget). simpl in Hd, Htarget.
      pose proof (Ht d Hd) as Hex. rewrite Htarget in Hex.
      pose proof (next_rowid_fresh s) as Hfresh.
      apply get_chunk_by_id_None in Hfresh. contradiction.
Qed.

(** X11. On a store whose dependency edges all lead to existing chunks,
    while no dependency is added and chunks are completed only by the
    [complete] command (creations and queries may come in between), the
    property that every completed chunk has only completed direct
    dependencies is kept. *)
Theorem complete_keeps_dependency_closed (s : Store) (ops : list operation) :
  forallb through_the_gate ops = true ->
  targets_exist s ->
  dependency_closed s ->
  dependency_closed (run ops s).
Proof.
  revert s. induction ops as [|op ops IH]; intros s Hops Ht Hs; [exact Hs|].
  simpl in Hops. apply andb_true_iff in Hops. destruct Hops as [Hop Hops].
  assert (Hstep : targets_exist (step s op) /\ dependency_closed (step s op)).
  { destruct op as [nm descr diff now| | |cid now|cid depends_on| | |cid now];
      try discriminate; cbn [step]; try (split; assumption).
    - now apply create_chunk_keeps_closed.
    - split; [now apply targets_exist_complete | now apply dependency_closed_complete]. }
  simpl. apply IH; [assumption | apply Hstep | apply Hstep].
Qed.

Lemma candidates_not_nil (s : Store) (c : Chunk) :
  In c (candidates s) -> get_next_available_chunk s <> None.
Proof.
  intros Hin H. rewrite get_next_available_chunk_candidates in H.
  destruct (order_by _ _) eqn:Ho; [|discriminate].
  apply order_by_nil in Ho. rewrite Ho in Hin. destruct Hin.
Qed.

(** X12. Completing the last unmet dependency makes a chunk available: if
    a chunk is not completed, its id is not [j], and each of its direct
    dependencies is completed or has id [j], then after [complete_chunk j]
    the chunk is a candidate and the availability query returns a chunk. *)
Theorem complete_chunk_unblocks (s : Store) (c : Chunk) (j : Z) (now : timestamp) :
  In c (chunks s) ->
  completed c = false ->
  id c <> j ->
  (forall dep, In dep (get_chunk_dependencies (id c) s) ->
               completed dep = true \/ id dep = j) ->
  In c (candidates (snd (complete_chunk j now s)))
  /\ get_next_available_chunk (snd (complete_chunk j now s)) <> None.
Proof.
  intros Hin Hc Hid Hdeps.
  assert (Hcand : In c (candidates (snd (complete_chunk j now s)))).
  { apply candidates_In. split; [|split; [assumption|]].
    - rewrite complete_chunk_chunks. apply in_map_iff. exists c.
      split; [|assumption]. apply Z.eqb_neq in Hid. now rewrite Hid.
    - rewrite get_chunk_dependencies_complete_chunk.
      apply Forall_map, Forall_forall. intros dep Hdep.
      apply completed_if_set_completed. now apply Hdeps. }
  split; [exact Hcand | exact (candidates_not_nil _ _ Hcand)].
Qed.

(** X13. An edge to an id that no chunk has yet starts to block once a
    chunk gets that id: if [(cid, r)] is an edge and the next creation
    returns [r], then after it the availability query does not return a
    chunk of id [cid] and the gate does not pass for [cid]. *)
Theorem dangling_edge_blocks_after_creation (nm descr : string) (diff : Z)
    (now : timestamp) (s : Store) (cid r : Z) :
  fst (create_chunk nm descr diff now s) = Return r ->
  edge s cid r ->
  let s' := snd (create_chunk nm descr diff now s) in
  (forall x, get_next_available_chunk s' = Some x -> id x <> cid)
  /\ can_complete cid s' <> Passed.
Proof.
  intros Hr He s'.
  assert (Hnew : exists row, In row (get_chunk_dependencies cid s')
                             /\ completed row = false).
  { subst s'. unfold create_chunk in *. destruct (_ && _); [|discriminate].
    simpl in Hr. injection Hr as <-. simpl.
    eexists. split.
    - apply get_chunk_dependencies_In. simpl.
      split; [apply in_or_app; right; left; reflexivity | exact He].
    - reflexivity. }
  destruct Hnew as (row & Hin & Hrow). split.
  - intros x Hx Hid. apply get_next_available_chunk_In, candidates_In in Hx.
    destruct Hx as (_ & _ & Hdeps). rewrite Hid, Forall_forall in Hdeps.
    apply Hdeps in Hin. congruence.
  - intros Hp. apply can_complete_Passed in Hp.
    destruct Hp as (_ & _ & _ & Hdeps). rewrite Forall_forall in Hdeps.
    apply Hdeps in Hin. congruence.
Qed.

(** X14. On a database that started fresh, whatever [next] shows can be
    completed at once: the chunk shown is not completed, the dependencies
    listed with it are all completed, and the [complete] command on its id
    ends in "Completed". *)
Theorem next_can_be_completed (ops : list operation) (now : timestamp)
    (chunk : Chunk) (deps : list Chunk) :
  next (run ops init_database) = Some (chunk, deps) ->
  completed chunk = false
  /\ Forall (fun dep => completed dep = true) deps
  /\ fst (complete (id chunk) now (run ops init_database)) = Return_completed.
Proof.
  unfold next. set (s := run ops init_database).
  destruct (get_next_available_chunk s) as [r|] eqn:Hr; [|discriminate].
  intros H. injection H as <- <-.
  apply get_next_available_chunk_In, candidates_In in Hr.
  destruct Hr as (Hin & Hc & Hdeps).
  split; [assumption|]. split; [assumption|].
  rewrite complete_Passed; [reflexivity|].
  unfold can_complete. subst s. rewrite (get_chunk_by_id_In ops r Hin), Hc.
  apply filter_incomplete_nil in Hdeps. now rewrite Hdeps.
Qed.

(** ** The [add] command *)

Lemma add_dependencies_None (new_id : Z) (rest : list (option Z)) (s : Store) :
  snd (add_dependencies new_id (None :: rest) s) = snd (add_dependencies new_id rest s).
Proof. simpl. now destruct (add_dependencies new_id rest s). Qed.

Lemma add_dependencies_Some (new_id dep : Z) (rest : list (option Z)) (s : Store) :
  snd (add_dependencies new_id (Some dep :: rest) s)
  = snd (add_dependencies new_id rest (snd (add_dependency new_id dep s))).
Proof.
  simpl. destruct (add_dependency new_id dep s) as [ok s1]. simpl.
  now destruct (add_dependencies new_id rest s1).
Qed.

(** The integers among the pieces of the answer. *)
Lemma add_dependencies_run (new_id : Z) (dep_ids : list (option Z)) (s : Store) :
  exists deps,
    (forall dep, In dep deps <-> In (Some dep) dep_ids)
    /\ snd (add_dependencies new_id dep_ids s)
       = run (map (Add_dependency new_id) deps) s.
Proof.
  revert s. induction dep_ids as [|[dep|] rest IH]; intros s.
  - exists []. split; [intros dep; simpl; tauto | reflexivity].
  - destruct (IH (snd (add_dependency new_id dep s))) as (deps & Hin & Hrun).
    exists (dep :: deps). split.
    + intros x. simpl. rewrite Hin. split; intros [H|H]; auto; left; congruence.
    + now rewrite add_dependencies_Some, Hrun.
  - destruct (IH s) as (deps & Hin & Hrun). exists deps. split.
    + intros x. simpl. rewrite Hin. split; [auto|]. intros [H|H]; [discriminate|auto].
    + now rewrite add_dependencies_None, Hrun.
Qed.

Lemma add_dependencies_edge (new_id : Z) (dep_ids : list (option Z)) (s : Store)
    (a b : Z) :
  edge (snd (add_dependencies new_id dep_ids s)) a b
  <-> edge s a b \/ (a = new_id /\ In (Some b) dep_ids).
Proof.
  revert s. induction dep_ids as [|[dep|] rest IH]; intros s.
  - simpl. tauto.
  - rewrite add_dependencies_Some, IH, edge_add_dependency. simpl.
    split.
    + intros [[H|[-> ->]]|[-> H]]; auto.
    + intros [H|[-> [H|H]]]; auto. injection H as ->. auto.
  - rewrite add_dependencies_None, IH. simpl.
    split; [tauto|]. intros [H|[-> [H|H]]]; [auto | discriminate | auto].
Qed.

Lemma add_dependencies_chunks (new_id : Z) (dep_ids : list (option Z)) (s : Store) :
  chunks (snd (add_dependencies new_id dep_ids s)) = chunks s.
Proof.
  revert s. induction dep_ids as [|[dep|] rest IH]; intros s.
  - reflexivity.
  - now rewrite add_dependencies_Some, IH, add_dependency_chunks.
  - now rewrite add_dependencies_None, IH.
Qed.

Lemma add_out_of_range (nm descr : string) (diff : Z) (add_deps : bool)
    (dep_ids : list (option Z)) (now : timestamp) (s : Store) :
  diff < 1 \/ 5 < diff ->
  add nm descr diff add_deps dep_ids now s = (Exit_difficulty_out_of_range, s).
Proof.
  intros H. unfold add.
  replace ((diff <? 1) || (diff >? 5)) with true; [reflexivity|].
  symmetry. apply orb_true_iff. rewrite Z.ltb_lt, Z.gtb_gt. lia.
Qed.

(** [add] with a difficulty in range, unfolded to the calls it makes. *)
Lemma add_in_range (nm descr : string) (diff : Z) (add_deps : bool)
    (dep_ids : list (option Z)) (now : timestamp) (s : Store) :
  1 <= diff <= 5 ->
  let new_id := next_rowid (chunks_seq s) (map id (chunks s)) in
  let s1 := snd (create_chunk nm descr diff now s) in
  add nm descr diff add_deps dep_ids now s
  = if add_deps then
      if (List.length (chunks s1) <=? 1)%nat
      then (Created_no_other_chunks new_id, s1)
      else (Created new_id (fst (add_dependencies new_id dep_ids s1)),
            snd (add_dependencies new_id dep_ids s1))
    else (Created new_id [], s1).
Proof.
  intros H new_id s1. unfold add.
  replace ((diff <? 1) || (diff >? 5)) with false
    by (symmetry; apply orb_false_iff; rewrite Z.ltb_ge, Z.gtb_ltb, Z.ltb_ge; lia).
  subst s1. destruct (create_chunk_in_range nm descr diff now s H) as [-> _].
  cbn [snd]. fold new_id. destruct add_deps; [|reflexivity].
  unfold get_all_chunks.
  rewrite (Permutation_length (order_by_Permutation created_at_desc _)).
  destruct (_ <=? 1)%nat; [reflexivity|].
  now destruct (add_dependencies new_id dep_ids _).
Qed.

(** X15. [add] with a difficulty outside 1..5 exits before any statement
    runs and leaves the store as it was; with a difficulty in 1..5 the
    creation inside it never raises, and exactly one chunk, with the fields
    given, is appended to [chunks]. *)
Theorem add_checks_difficulty (nm descr : string) (diff : Z) (add_deps : bool)
    (dep_ids : list (option Z)) (now : timestamp) (s : Store) :
  (diff < 1 \/ 5 < diff ->
   add nm descr diff add_deps dep_ids now s = (Exit_difficulty_out_of_range, s))
  /\ (forall e, fst (add nm descr diff add_deps dep_ids now s) <> Create_chunk_raised e)
  /\ (1 <= diff <= 5 ->
      exists new_id,
        get_chunk_by_id new_id s = None
        /\ chunks (snd (add nm descr diff add_deps dep_ids now s))
           = chunks s ++ [mkChunk new_id nm descr diff false (Some now) None]).
Proof.
  split; [apply add_out_of_range|]. split.
  - intros e. destruct (Z_lt_le_dec diff 1) as [H1|H1];
      [rewrite add_out_of_range by lia; discriminate|].
    destruct (Z_lt_le_dec 5 diff) as [H5|H5];
      [rewrite add_out_of_range by lia; discriminate|].
    rewrite add_in_range by lia.
    destruct add_deps; [destruct (_ <=? 1)%nat|]; discriminate.
  - intros H. exists (next_rowid (chunks_seq s) (map id (chunks s))).
    split; [apply next_rowid_fresh|].
    rewrite add_in_range by assumption.
    destruct (create_chunk_in_range nm descr diff now s H) as [Hc _].
    rewrite Hc. cbn [snd chunks].
    destruct add_deps; [destruct (_ <=? 1)%nat|]; cbn [snd chunks]; try reflexivity.
    now rewrite add_dependencies_chunks.
Qed.

(** X16. [add] with a difficulty in 1..5 amounts to one [create_chunk]
    followed by [add_dependency] calls from the new chunk to integers of
    the answer: every edge there is afterwards was there before or leads
    from the new chunk to an integer of the answer. *)
Theorem add_is_create_then_add_dependency (nm descr : string) (diff : Z)
    (add_deps : bool) (dep_ids : list (option Z)) (now : timestamp) (s : Store) :
  1 <= diff <= 5 ->
  let new_id := next_rowid (chunks_seq s) (map id (chunks s)) in
  let s' := snd (add nm descr diff add_deps dep_ids now s) in
  (exists deps,
      (forall dep, In dep deps -> In (Some dep) dep_ids)
      /\ s' = run (Create_chunk nm descr diff now
                     :: map (Add_dependency new_id) deps) s)
  /\ (forall a b,
        edge s' a b -> edge s a b \/ (a = new_id /\ In (Some b) dep_ids)).
Proof.
  intros H new_id s'. subst s'. rewrite add_in_range by assumption. fold new_id.
  set (s1 := snd (create_chunk nm descr diff now s)).
  assert (Hs1 : forall a b, edge s1 a b -> edge s a b).
  { subst s1. destruct (create_chunk_in_range nm descr diff now s H) as [-> _].
    intros a b He. exact He. }
  assert (Hnone : (exists deps : list Z,
                      (forall dep, In dep deps -> In (Some dep) dep_ids)
                      /\ s1 = run (Create_chunk nm descr diff now
                                     :: map (Add_dependency new_id) deps) s)
                  /\ (forall a b,
                         edge s1 a b -> edge s a b \/ (a = new_id /\ In (Some b) dep_ids))).
  { split; [|intros a b He; left; now apply Hs1].
    exists []. split; [intros dep []|reflexivity]. }
  destruct add_deps; [destruct (_ <=? 1)%nat|]; cbn [snd]; try exact Hnone.
  split.
  - destruct (add_dependencies_run new_id dep_ids s1) as (deps & Hin & Hrun).
    exists deps. split; [intros dep Hd; now apply Hin|]. rewrite Hrun. reflexivity.
  - intros a b He. apply add_dependencies_edge in He.
    destruct He as [He|He]; [left; now apply Hs1 | now right].
Qed.

(** X17. [add] on a store without chunks adds no dependency, whatever was
    answered: with only the chunk just created in the table, the command
    does not reach the prompt for dependency ids. *)
Theorem add_first_chunk_without_dependencies (nm descr : string) (diff : Z)
    (add_deps : bool) (dep_ids : list (option Z)) (now : timestamp) (s : Store) :
  chunks s = [] ->
  dependencies (snd (add nm descr diff add_deps dep_ids now s)) = dependencies s.
Proof.
  intros Hempty.
  destruct (Z_lt_le_dec diff 1) as [H1|H1];
    [now rewrite add_out_of_range by lia|].
  destruct (Z_lt_le_dec 5 diff) as [H5|H5];
    [now rewrite add_out_of_range by lia|].
  rewrite add_in_range by lia.
  destruct (create_chunk_in_range nm descr diff now s (conj H1 H5)) as [-> _].
  cbn [snd chunks]. rewrite Hempty. simpl. now destruct add_deps.
Qed.

Lemma self_loop_not_available (s : Store) (cid : Z) :
  edge s cid cid ->
  (forall r, get_next_available_chunk s = Some r -> id r <> cid)
  /\ can_complete cid s <> Passed.
Proof.
  intros Hloop. split.
  - intros r Hr Hid. apply get_next_available_chunk_In, candidates_In in Hr.
    destruct Hr as (Hin & Hc & Hdeps). rewrite Forall_forall in Hdeps.
    assert (Hself : In r (get_chunk_dependencies (id r) s))
      by (apply get_chunk_dependencies_In; split; [assumption | now rewrite Hid]).
    apply Hdeps in Hself. congruence.
  - intros Hpass. apply can_complete_Passed in Hpass.
    destruct Hpass as (chunk & Hget & Hc & Hdeps).
    apply get_chunk_by_id_Some in Hget. destruct Hget as [Hin Hid].
    rewrite Forall_forall in Hdeps.
    assert (Hself : In chunk (get_chunk_dependencies cid s))
      by (apply get_chunk_dependencies_In; split; [assumption | now rewrite Hid]).
    apply Hdeps in Hself. congruence.
Qed.

(** X18. [add] accepts the id of the chunk it has just created as one of
    its dependencies: when other chunks exist, every integer of the answer
    binds (so that no [add_dependency] call of the loop raises) and the
    answer holds that id, the new chunk depends on itself, and after any
    further calls the availability query does not return it and the gate
    does not pass for it. *)
Theorem add_accepts_own_id (nm descr : string) (diff : Z)
    (dep_ids : list (option Z)) (now : timestamp) (s : Store) (ops : list operation) :
  1 <= diff <= 5 ->
  chunks s <> [] ->
  (forall dep, In (Some dep) dep_ids -> sqlite_integer dep) ->
  let new_id := next_rowid (chunks_seq s) (map id (chunks s)) in
  In (Some new_id) dep_ids ->
  let s' := snd (add nm descr diff true dep_ids now s) in
  edge s' new_id new_id
  /\ (forall r, get_next_available_chunk (run ops s') = Some r -> id r <> new_id)
  /\ can_complete new_id (run ops s') <> Passed.
Proof.
  intros H Hne _ new_id Hin s'.
  assert (Hloop : edge s' new_id new_id).
  { assert (Hlen : (List.length (chunks (snd (create_chunk nm descr diff now s)))
                    <=? 1)%nat = false).
    { destruct (create_chunk_in_range nm descr diff now s H) as [-> _].
      cbn [snd chunks]. rewrite length_app. apply Nat.leb_gt.
      destruct (chunks s); [contradiction | simpl; lia]. }
    subst s'. rewrite add_in_range by assumption. rewrite Hlen. cbn [snd].
    apply add_dependencies_edge. right. split; [reflexivity | exact Hin]. }
  split; [exact Hloop|].
  apply self_loop_not_available. now apply run_edge.
Qed.

(** ** The further properties at concrete stores *)

Lemma ids_are_sequential_witness :
  1 <= 3 <= 5
  /\ fst (create_chunk "Third" "third chunk" 3 102
            (run [learn_pandas; Create_chunk "Bad" "rejected" 9 100; build_ml_model]
                 init_database))
     = Return 3.
Proof.
  assert (H : 1 <= 3 <= 5) by (split; discriminate).
  split; [exact H|].
  exact (proj2 (proj2 (ids_are_sequential
                         [learn_pandas; Create_chunk "Bad" "rejected" 9 100;
                          build_ml_model]))
           _ _ 3 102 H).
Defined.

Lemma get_chunk_by_id_iff_stored_witness :
  (In (mkChunk 2 "Build ML Model" "Create a simple model" 4 false (Some 101) None)
      (chunks (run [learn_pandas; build_ml_model] init_database))
   /\ 2 = 2)
  /\ get_chunk_by_id 2 (run [learn_pandas; build_ml_model] init_database)
     = Some (mkChunk 2 "Build ML Model" "Create a simple model" 4 false (Some 101) None).
Proof.
  assert (H : In (mkChunk 2 "Build ML Model" "Create a simple model" 4 false
                    (Some 101) None)
                 (chunks (run [learn_pandas; build_ml_model] init_database))
              /\ 2 = 2)
    by (split; [right; left; reflexivity | reflexivity]).
  split; [exact H|].
  exact (proj2 (get_chunk_by_id_iff_stored [learn_pandas; build_ml_model] 2 _) H).
Defined.

Lemma create_chunk_then_get_witness :
  1 <= 4 <= 5
  /\ exists rowid,
       fst (create_chunk "Build ML Model" "Create a simple model" 4 101 dangling_edge)
       = Return rowid
       /\ get_chunk_by_id rowid dangling_edge = None
       /\ get_chunk_by_id rowid
            (snd (create_chunk "Build ML Model" "Create a simple model" 4 101
                    dangling_edge))
          = Some (mkChunk rowid "Build ML Model" "Create a simple model" 4 false
                    (Some 101) None)
       /\ (forall cid, cid <> rowid ->
             get_chunk_by_id cid
               (snd (create_chunk "Build ML Model" "Create a simple model" 4 101
                       dangling_edge))
             = get_chunk_by_id cid dangling_edge)
       /\ dependencies
            (snd (create_chunk "Build ML Model" "Create a simple model" 4 101
                    dangling_edge))
          = dependencies dangling_edge.
Proof.
  assert (H : 1 <= 4 <= 5) by (split; discriminate).
  split; [exact H|].
  exact (create_chunk_then_get _ _ 4 101 dangling_edge H).
Defined.

Lemma unknown_id_changes_nothing_witness :
  sqlite_integer 7
  /\ get_chunk_by_id 7 two_chunks_one_edge = None
  /\ complete_chunk 7 300 two_chunks_one_edge = (false, two_chunks_one_edge)
  /\ complete 7 300 two_chunks_one_edge = (Exit_not_found, two_chunks_one_edge).
Proof.
  assert (H7 : sqlite_integer 7) by (split; [discriminate | reflexivity]).
  split; [exact H7|]. split; [reflexivity|].
  exact (unknown_id_changes_nothing 7 300 two_chunks_one_edge H7 eq_refl).
Defined.

Lemma fixed_fields_never_change_witness :
  get_chunk_by_id 1 two_chunks_one_edge
  = Some (mkChunk 1 "Learn Pandas" "Learn pandas basics" 2 false (Some 100) None)
  /\ exists c',
       get_chunk_by_id 1
         (run [Complete 1 200; Complete_chunk 1 300; Add_dependency 1 2;
               Create_chunk "Learn Pandas" "again" 5 400]
              two_chunks_one_edge) = Some c'
       /\ same_fixed_fields
            (mkChunk 1 "Learn Pandas" "Learn pandas basics" 2 false (Some 100) None) c'.
Proof.
  split; [reflexivity|].
  exact (fixed_fields_never_change two_chunks_one_edge 1 _ _ eq_refl).
Defined.

Lemma add_dependency_then_get_witness :
  (In (mkChunk 1 "Learn Pandas" "Learn pandas basics" 2 false (Some 100) None)
      (chunks (run [learn_pandas; build_ml_model] init_database))
   /\ 1 = 1)
  /\ In (mkChunk 1 "Learn Pandas" "Learn pandas basics" 2 false (Some 100) None)
        (get_chunk_dependencies 2
           (snd (add_dependency 2 1 (run [learn_pandas; build_ml_model] init_database))))
  /\ 1 <> 2
  /\ (forall x,
        In x (get_chunk_dependencies 1
                (snd (add_dependency 2 1
                        (run [learn_pandas; build_ml_model] init_database))))
        <-> In x (get_chunk_dependencies 1
                    (run [learn_pandas; build_ml_model] init_database))).
Proof.
  pose proof (add_dependency_then_get
                (run [learn_pandas; build_ml_model] init_database) 2 1)
    as (Hsame & Hother & _).
  assert (H : In (mkChunk 1 "Learn Pandas" "Learn pandas basics" 2 false
                    (Some 100) None)
                 (chunks (run [learn_pandas; build_ml_model] init_database))
              /\ 1 = 1)
    by (split; [left; reflexivity | reflexivity]).
  assert (Hne : 1 <> 2) by discriminate.
  split; [exact H|].
  split; [exact (proj2 (Hsame _) (or_intror H))|].
  split; [exact Hne|].
  intros x. exact (Hother 1 x Hne).
Defined.

Lemma complete_command_outcome_witness :
  (can_complete 2 prerequisite_completed = Passed
   /\ fst (complete 2 300 prerequisite_completed) = Return_completed
   /\ exists c',
        get_chunk_by_id 2 (snd (complete 2 300 prerequisite_completed)) = Some c'
        /\ completed c' = true /\ completed_at c' = Some 300)
  /\ (fst (complete 2 300 two_chunks_one_edge) <> Return_completed
      /\ snd (complete 2 300 two_chunks_one_edge) = two_chunks_one_edge).
Proof.
  split.
  - destruct (complete_command_outcome 2 300 prerequisite_completed)
      as (_ & Hiff & _ & Hdone).
    assert (Hp : can_complete 2 prerequisite_completed = Passed) by reflexivity.
    split; [exact Hp|]. split; [exact (proj2 Hiff Hp)|].
    exact (Hdone (proj2 Hiff Hp)).
  - destruct (complete_command_outcome 2 300 two_chunks_one_edge)
      as (_ & _ & Hsame & _).
    assert (Hn : fst (complete 2 300 two_chunks_one_edge) <> Return_completed)
      by discriminate.
    split; [exact Hn | exact (Hsame Hn)].
Defined.

Lemma complete_keeps_dependency_closed_witness :
  forallb through_the_gate
    [Complete 2 300; Create_chunk "Third" "third chunk" 3 301;
     Get_next_available_chunk; Complete 3 400]
  = true
  /\ targets_exist prerequisite_completed
  /\ dependency_closed prerequisite_completed
  /\ dependency_closed
       (run [Complete 2 300; Create_chunk "Third" "third chunk" 3 301;
             Get_next_available_chunk; Complete 3 400]
            prerequisite_completed).
Proof.
  assert (Ht : targets_exist prerequisite_completed).
  { intros d Hd. vm_compute in Hd. destruct Hd as [<-|[]].
    exists (mkChunk 1 "Learn Pandas" "Learn pandas basics" 2 true (Some 100) (Some 200)).
    split; [left; reflexivity | reflexivity]. }
  assert (H : dependency_closed prerequisite_completed).
  { intros c Hin Hc. vm_compute in Hin.
    destruct Hin as [<-|[<-|[]]]; [constructor | discriminate Hc]. }
  split; [reflexivity|]. split; [exact Ht|]. split; [exact H|].
  exact (complete_keeps_dependency_closed prerequisite_completed
           [Complete 2 300; Create_chunk "Third" "third chunk" 3 301;
            Get_next_available_chunk; Complete 3 400] eq_refl Ht H).
Defined.

Lemma complete_chunk_unblocks_witness :
  In (mkChunk 2 "Build ML Model" "Create a simple model" 4 false (Some 101) None)
     (chunks two_chunks_one_edge)
  /\ 2 <> 1
  /\ (forall dep, In dep (get_chunk_dependencies 2 two_chunks_one_edge) ->
                  completed dep = true \/ id dep = 1)
  /\ In (mkChunk 2 "Build ML Model" "Create a simple model" 4 false (Some 101) None)
        (candidates (snd (complete_chunk 1 200 two_chunks_one_edge)))
  /\ get_next_available_chunk (snd (complete_chunk 1 200 two_chunks_one_edge)) <> None.
Proof.
  assert (Hin : In (mkChunk 2 "Build ML Model" "Create a simple model" 4 false
                      (Some 101) None)
                   (chunks two_chunks_one_edge))
    by (right; left; reflexivity).
  assert (Hne : 2 <> 1) by discriminate.
  assert (Hdeps : forall dep, In dep (get_chunk_dependencies 2 two_chunks_one_edge) ->
                              completed dep = true \/ id dep = 1).
  { intros dep Hd. vm_compute in Hd. destruct Hd as [<-|[]]. right. reflexivity. }
  split; [exact Hin|]. split; [exact Hne|]. split; [exact Hdeps|].
  exact (complete_chunk_unblocks two_chunks_one_edge _ 1 200 Hin eq_refl Hne Hdeps).
Defined.

Lemma dangling_edge_blocks_after_creation_witness :
  fst (create_chunk "Build ML Model" "Create a simple model" 4 101 edge_to_next_id)
  = Return 2
  /\ edge edge_to_next_id 1 2
  /\ get_next_available_chunk edge_to_next_id
     = Some (mkChunk 1 "Learn Pandas" "Learn pandas basics" 2 false (Some 100) None)
  /\ (forall x,
        get_next_available_chunk
          (snd (create_chunk "Build ML Model" "Create a simple model" 4 101
                  edge_to_next_id)) = Some x ->
        id x <> 1)
  /\ can_complete 1
       (snd (create_chunk "Build ML Model" "Create a simple model" 4 101
               edge_to_next_id)) <> Passed.
Proof.
  assert (He : edge edge_to_next_id 1 2) by (apply unique_violated_edge; reflexivity).
  split; [reflexivity|]. split; [exact He|]. split; [reflexivity|].
  exact (dangling_edge_blocks_after_creation _ _ 4 101 edge_to_next_id 1 2 eq_refl He).
Defined.

Lemma next_can_be_completed_witness :
  next (run [learn_pandas; build_ml_model; Add_dependency 2 1; Complete 1 200]
            init_database)
  = Some (mkChunk 2 "Build ML Model" "Create a simple model" 4 false (Some 101) None,
          [mkChunk 1 "Learn Pandas" "Learn pandas basics" 2 true (Some 100) (Some 200)])
  /\ fst (complete 2 300
            (run [learn_pandas; build_ml_model; Add_dependency 2 1; Complete 1 200]
                 init_database))
     = Return_completed.
Proof.
  split; [reflexivity|].
  exact (proj2 (proj2 (next_can_be_completed
                         [learn_pandas; build_ml_model; Add_dependency 2 1;
                          Complete 1 200] 300 _ _ eq_refl))).
Defined.

Lemma add_checks_difficulty_witness :
  ((6 < 1 \/ 5 < 6)
   /\ add "Too hard" "rejected" 6 true [Some 1] 100 two_chunks_one_edge
      = (Exit_difficulty_out_of_range, two_chunks_one_edge))
  /\ (1 <= 5 <= 5
      /\ exists new_id,
           get_chunk_by_id new_id two_chunks_one_edge = None
           /\ chunks (snd (add "Hard" "accepted" 5 true [Some 1; None] 100
                             two_chunks_one_edge))
              = chunks two_chunks_one_edge
                ++ [mkChunk new_id "Hard" "accepted" 5 false (Some 100) None]).
Proof.
  split.
  - assert (H : 6 < 1 \/ 5 < 6) by (right; reflexivity).
    split; [exact H|].
    exact (proj1 (add_checks_difficulty _ _ 6 true [Some 1] 100 two_chunks_one_edge) H).
  - assert (H : 1 <= 5 <= 5) by (split; discriminate).
    split; [exact H|].
    exact (proj2 (proj2 (add_checks_difficulty _ _ 5 true [Some 1; None] 100
                           two_chunks_one_edge)) H).
Defined.

Lemma add_is_create_then_add_dependency_witness :
  1 <= 3 <= 5
  /\ (exists deps,
         (forall dep, In dep deps -> In (Some dep) [Some 1; None; Some 7])
         /\ snd (add "Third" "third chunk" 3 true [Some 1; None; Some 7] 102
                   two_chunks_one_edge)
            = run (Create_chunk "Third" "third chunk" 3 102
                     :: map (Add_dependency 3) deps) two_chunks_one_edge)
  /\ (forall a b,
        edge (snd (add "Third" "third chunk" 3 true [Some 1; None; Some 7] 102
                     two_chunks_one_edge)) a b ->
        edge two_chunks_one_edge a b \/ (a = 3 /\ In (Some b) [Some 1; None; Some 7])).
Proof.
  assert (H : 1 <= 3 <= 5) by (split; discriminate).
  split; [exact H|].
  exact (add_is_create_then_add_dependency _ _ 3 true [Some 1; None; Some 7] 102
           two_chunks_one_edge H).
Defined.

Lemma add_first_chunk_without_dependencies_witness :
  chunks init_database = []
  /\ dependencies (snd (add "Learn Pandas" "Learn pandas basics" 2 true [Some 1; Some 5]
                          100 init_database))
     = dependencies init_database.
Proof.
  split; [reflexivity|].
  exact (add_first_chunk_without_dependencies _ _ 2 true [Some 1; Some 5] 100
           init_database eq_refl).
Defined.

Lemma add_accepts_own_id_witness :
  1 <= 4 <= 5
  /\ chunks (run [learn_pandas] init_database) <> []
  /\ (forall dep, In (Some dep) [Some 1; Some 2] -> sqlite_integer dep)
  /\ In (Some 2) [Some 1; Some 2]
  /\ edge (snd (add "Build ML Model" "Create a simple model" 4 true [Some 1; Some 2] 101
                  (run [learn_pandas] init_database))) 2 2
  /\ (forall r,
        get_next_available_chunk
          (run [Complete 1 200]
               (snd (add "Build ML Model" "Create a simple model" 4 true
                       [Some 1; Some 2] 101 (run [learn_pandas] init_database))))
        = Some r ->
        id r <> 2)
  /\ can_complete 2
       (run [Complete 1 200]
            (snd (add "Build ML Model" "Create a simple model" 4 true
                    [Some 1; Some 2] 101 (run [learn_pandas] init_database))))
     <> Passed.
Proof.
  assert (H : 1 <= 4 <= 5) by (split; discriminate).
  assert (Hne : chunks (run [learn_pandas] init_database) <> []) by discriminate.
  assert (Hin : In (Some 2) [Some 1; Some 2]) by (right; left; reflexivity).
  assert (Hbind : forall dep, In (Some dep) [Some 1; Some 2] -> sqlite_integer dep).
  { intros dep [Hd|[Hd|[]]]; injection Hd as <-; split;
      solve [discriminate | reflexivity]. }
  split; [exact H|]. split; [exact Hne|]. split; [exact Hbind|]. split; [exact Hin|].
  exact (add_accepts_own_id _ _ 4 [Some 1; Some 2] 101
           (run [learn_pandas] init_database) [Complete 1 200] H Hne Hbind Hin).
Defined.

(** ** The [list] command and progress *)

Lemma unique_pairs_run (ops : list operation) :
  NoDup (map pair (dependencies (run ops init_database))).
Proof.
  apply (run_invariant (fun s => NoDup (map pair (dependencies s)))).
  - intros s op. apply unique_pairs_step.
  - constructor.
Qed.

Lemma difficulty_in_range_run (ops : list operation) :
  Forall (fun c => 1 <= difficulty c <= 5) (chunks (run ops init_database)).
Proof. apply Forall_chunks_run; simpl; auto. Qed.

(** X19. On a database that started fresh, [list] prints no table exactly
    when there is no chunk (no table without chunks, a table with any);
    a table it prints has one row for each chunk (the ids of its rows are
    1..n in some order), every row shows between one and five stars, and
    no dependencies column names an id twice. *)
Theorem list_table_rows (ops : list operation) :
  let s := run ops init_database in
  (list_table s = None <-> chunks s = [])
  /\ (forall rows,
        list_table s = Some rows ->
        Permutation (map row_id rows)
                    (map Z.of_nat (seq 1 (List.length (chunks s))))
        /\ Forall (fun r => (1 <= row_stars r <= 5)%nat /\ NoDup (row_dependencies r))
                  rows).
Proof.
  intros s. subst s. unfold list_table.
  pose proof (order_by_Permutation created_at_desc (chunks (run ops init_database)))
    as Hperm.
  fold (get_all_chunks (run ops init_database)) in Hperm.
  destruct (get_all_chunks (run ops init_database)) as [|chunk rest] eqn:E.
  - apply Permutation_nil in Hperm. split; [now split|]. intros rows H. discriminate H.
  - split.
    { split; [discriminate|]. intros Hnil. rewrite Hnil in Hperm.
      symmetry in Hperm. apply Permutation_nil in Hperm. discriminate Hperm. }
    intros rows Hrows.
    assert (Hr : rows
                 = map (fun c =>
                          {| row_id := id c;
                             row_name := name c;
                             row_stars := Z.to_nat (difficulty c);
                             row_complete := completed c;
                             row_dependencies :=
                               map id (get_chunk_dependencies (id c)
                                         (run ops init_database)) |})
                       (chunk :: rest))
      by (injection Hrows as <-; reflexivity).
    subst rows. clear Hrows. split.
    + rewrite map_map. cbn [row_id].
      rewrite <- (proj1 (sequential_ids_run ops)).
      now apply Permutation_map.
    + apply Forall_map, Forall_forall. intros c Hc. cbn [row_stars row_dependencies].
      apply (Permutation_in _ Hperm) in Hc.
      pose proof (difficulty_in_range_run ops) as Hd.
      rewrite Forall_forall in Hd. specialize (Hd c Hc). split; [lia|].
      apply join_NoDup.
      * apply sequential_ids_NoDup, sequential_ids_run.
      * apply unique_pairs_run.
Qed.

(** X20. The scheduler does not stall without a cycle: if some chunk is
    not completed, and the incomplete chunks can be ranked so that every
    incomplete direct dependency of an incomplete chunk has a smaller rank
    than the chunk, then the availability query returns a chunk. *)
Theorem next_available_without_cycle (s : Store) (rank : Chunk -> nat) (c : Chunk) :
  In c (chunks s) ->
  completed c = false ->
  (forall a dep,
      In a (chunks s) -> completed a = false ->
      In dep (get_chunk_dependencies (id a) s) -> completed dep = false ->
      (rank dep < rank a)%nat) ->
  get_next_available_chunk s <> None.
Proof.
  intros Hin Hc Hrank.
  assert (Hcand : exists c', In c' (candidates s)).
  { remember (rank c) as n eqn:Hn. revert c Hin Hc Hn.
    induction n as [n IH] using (well_founded_induction lt_wf).
    intros c Hin Hc Hn.
    destruct (forallb completed (get_chunk_dependencies (id c) s)) eqn:E.
    - exists c. apply candidates_In. split; [assumption|]. split; [assumption|].
      apply Forall_forall. now apply forallb_forall.
    - assert (Hex : exists dep, In dep (get_chunk_dependencies (id c) s)
                                /\ completed dep = false).
      { clear - E. induction (get_chunk_dependencies (id c) s) as [|d l IHl];
          simpl in E; [discriminate|].
        destruct (completed d) eqn:Hd.
        - destruct (IHl E) as (dep & Hin & Hdep). exists dep. split; [now right|assumption].
        - exists d. split; [now left|assumption]. }
      destruct Hex as (dep & Hdep & Hdc).
      assert (Hdin : In dep (chunks s))
        by (apply get_chunk_dependencies_In in Hdep; tauto).
      apply (IH (rank dep)) with (c := dep); try assumption; try reflexivity.
      subst n. now apply (Hrank c dep). }
  destruct Hcand as (c' & Hc'). exact (candidates_not_nil s c' Hc').
Qed.

Lemma next_available_without_cycle_witness :
  In (mkChunk 2 "Build ML Model" "Create a simple model" 4 false (Some 101) None)
     (chunks two_chunks_one_edge)
  /\ (forall a dep,
         In a (chunks two_chunks_one_edge) -> completed a = false ->
         In dep (get_chunk_dependencies (id a) two_chunks_one_edge) ->
         completed dep = false ->
         (Z.to_nat (id dep) < Z.to_nat (id a))%nat)
  /\ get_next_available_chunk two_chunks_one_edge <> None.
Proof.
  assert (Hin : In (mkChunk 2 "Build ML Model" "Create a simple model" 4 false
                      (Some 101) None)
                   (chunks two_chunks_one_edge))
    by (right; left; reflexivity).
  assert (Hrank : forall a dep,
             In a (chunks two_chunks_one_edge) -> completed a = false ->
             In dep (get_chunk_dependencies (id a) two_chunks_one_edge) ->
             completed dep = false ->
             (Z.to_nat (id dep) < Z.to_nat (id a))%nat).
  { intros a dep Ha _ Hd _. vm_compute in Ha.
    destruct Ha as [<-|[<-|[]]]; vm_compute in Hd.
    - destruct Hd.
    - destruct Hd as [<-|[]]. vm_compute. constructor. }
  split; [exact Hin|]. split; [exact Hrank|].
  exact (next_available_without_cycle two_chunks_one_edge
           (fun c => Z.to_nat (id c)) _ Hin eq_refl Hrank).
Defined.

Lemma list_table_rows_witness :
  (chunks (run [] init_database) = [] /\ list_table (run [] init_database) = None)
  /\ (list_table (run [learn_pandas; build_ml_model; Add_dependency 2 1] init_database)
      = Some [mkRow 2 "Build ML Model" 4 false [1]; mkRow 1 "Learn Pandas" 2 false []]
      /\ Permutation [2; 1] [1; 2]
      /\ Forall (fun r => (1 <= row_stars r <= 5)%nat /\ NoDup (row_dependencies r))
           [mkRow 2 "Build ML Model" 4 false [1]; mkRow 1 "Learn Pandas" 2 false []]).
Proof.
  split.
  - split; [reflexivity|].
    exact (proj2 (proj1 (list_table_rows [])) eq_refl).
  - split; [reflexivity|].
    exact (proj2 (list_table_rows [learn_pandas; build_ml_model; Add_dependency 2 1])
             _ eq_refl).
Defined.
